(** * tcex threat-intelligence transforms

    A shallow embedding of [tcex/api/tc/ti_transform/model/transform_model.py]
    (the pydantic configuration models and their validators) and of
    [tcex/api/tc/ti_transform/ti_transform.py] (the imperative helpers of
    [TiTransform], its two serializers, and the two collection loops of
    [TiTransforms]), followed by the properties established about them.

    Python dictionaries keep insertion order and the code depends on it
    ([sorted(items())], iterating a dict yields its keys in order), so a
    dictionary is an association list with string keys, updated in place. *)

From Stdlib Require Import String Ascii List ZArith Bool Arith Lia.
From Stdlib Require Import Sorted Permutation.
Import ListNotations.
Local Open Scope string_scope.
Local Open Scope list_scope.

(** ** Python values *)

(** [VFloat] carries the IEEE-754 binary64 bit pattern of a Python float; no
    float arithmetic is modelled.  [VObj] is an object with default
    truthiness whose content the code never inspects: a function, a
    [datetime], a pydantic model instance. *)
#[warnings="-register-all"]
Inductive pyval : Type :=
| VNone
| VBool (b : bool)
| VInt (z : Z)
| VFloat (bits : Z)
| VStr (s : string)
| VObj (repr : string)
| VList (l : list pyval)
| VDict (d : list (string * pyval)).

Definition pydict : Type := list (string * pyval).

(** Python truthiness ([bool(v)]). *)
Definition truthy (v : pyval) : bool :=
  match v with
  | VNone => false
  | VBool b => b
  | VInt z => negb (z =? 0)%Z
  | VFloat bits => negb ((bits mod 2 ^ 63) =? 0)%Z
  | VStr s => negb (s =? "")
  | VObj _ => true
  | VList l => match l with [] => false | _ :: _ => true end
  | VDict d => match d with [] => false | _ :: _ => true end
  end.

Definition is_none (v : pyval) : bool :=
  match v with VNone => true | _ => false end.

(** [v is True] *)
Definition is_True (v : pyval) : bool :=
  match v with VBool true => true | _ => false end.

(** [any(vs)] and [vs.count(None)] *)
Definition py_any (vs : list pyval) : bool := existsb truthy vs.
Definition count_None (vs : list pyval) : nat := length (filter is_none vs).

(** ** Exceptions and results *)

(** [NoValidTransformException] and [TransformException] are declared in
    [transform_abc.py]; [ValidationError] is what pydantic raises when a
    validator raises [ValueError].  [Unsupported] is not a Python exception:
    the model returns it where an input leaves the modelled fragment (a
    number used as a dictionary key). *)
Inductive exn : Type :=
| NoValidTransformException
| TransformException (field cause : string) (context : pydict)
| KeyError (key : string)
| TypeError
| AttributeError
| ValueError (msg : string)
| ValidationError (msgs : list string)
| Unsupported.

Inductive result (A : Type) : Type :=
| Ok (a : A)
| Raise (e : exn).
Arguments Ok {A} a.
Arguments Raise {A} e.

Definition bind {A B : Type} (c : result A) (k : A -> result B) : result B :=
  match c with
  | Ok a => k a
  | Raise e => Raise e
  end.

Notation "x <- c ;; k" := (bind c (fun x => k))
  (at level 61, c at next level, right associativity).
Notation "' p <- c ;; k" := (bind c (fun x => let p := x in k))
  (at level 61, p pattern, c at next level, right associativity).

Fixpoint mapM {A B : Type} (f : A -> result B) (l : list A) : result (list B) :=
  match l with
  | [] => Ok []
  | a :: l' => b <- f a ;; bs <- mapM f l' ;; Ok (b :: bs)
  end.

(** ** Dictionaries *)

Fixpoint dict_get (k : string) (d : pydict) : option pyval :=
  match d with
  | [] => None
  | (k', v) :: d' => if k =? k' then Some v else dict_get k d'
  end.

(** [d.get(k, default)] and [d.get(k)] *)
Definition get_default (d : pydict) (k : string) (default : pyval) : pyval :=
  match dict_get k d with
  | Some v => v
  | None => default
  end.
Definition get (d : pydict) (k : string) : pyval := get_default d k VNone.

(** [d[k]] *)
Definition getitem (d : pydict) (k : string) : result pyval :=
  match dict_get k d with
  | Some v => Ok v
  | None => Raise (KeyError k)
  end.

(** [d[k] = v]: an existing key keeps its position, a new one goes last. *)
Fixpoint dict_set (k : string) (v : pyval) (d : pydict) : pydict :=
  match d with
  | [] => [(k, v)]
  | (k', v') :: d' =>
      if k =? k' then (k', v) :: d' else (k', v') :: dict_set k v d'
  end.

(** The dictionary without the entry of [k] (keys are distinct). *)
Fixpoint dict_remove (k : string) (d : pydict) : pydict :=
  match d with
  | [] => []
  | (k', v') :: d' =>
      if k =? k' then dict_remove k d' else (k', v') :: dict_remove k d'
  end.

(** [del d[k]] *)
Definition dict_del (k : string) (d : pydict) : result pydict :=
  match dict_get k d with
  | Some _ => Ok (dict_remove k d)
  | None => Raise (KeyError k)
  end.

(** [d.pop(k)] and [d.pop(k, default)]: the value and the dictionary left. *)
Definition dict_pop (k : string) (d : pydict) : result (pyval * pydict) :=
  match dict_get k d with
  | Some v => Ok (v, dict_remove k d)
  | None => Raise (KeyError k)
  end.
Definition dict_pop_default (k : string) (default : pyval) (d : pydict)
  : pyval * pydict :=
  match dict_get k d with
  | Some v => (v, dict_remove k d)
  | None => (default, d)
  end.

(** Iterating a value: the elements of a list, the keys of a dict, the
    characters of a string; anything else is not iterable. *)
Definition py_iter (v : pyval) : result (list pyval) :=
  match v with
  | VList l => Ok l
  | VDict d => Ok (map (fun kv => VStr (fst kv)) d)
  | VStr s => Ok (map (fun c => VStr (String c "")) (list_ascii_of_string s))
  | _ => Raise TypeError
  end.

(** [d.setdefault(k, [])], read as the list a following [append] or
    [extend] works on; a value of another type has neither method. *)
Definition setdefault_list (k : string) (d : pydict) : result (list pyval) :=
  match dict_get k d with
  | None => Ok []
  | Some (VList l) => Ok l
  | Some _ => Raise AttributeError
  end.

(** [d.setdefault(k, []).extend(xs)] *)
Definition setdefault_extend (k : string) (xs : pyval) (d : pydict)
  : result pydict :=
  l0 <- setdefault_list k d ;;
  l <- py_iter xs ;;
  Ok (dict_set k (VList (l0 ++ l)) d).

(** [d[k].append(x)] and [d[k].extend(xs)] for [xs] a list *)
Definition getitem_append (k : string) (x : pyval) (d : pydict)
  : result pydict :=
  v <- getitem d k ;;
  match v with
  | VList l => Ok (dict_set k (VList (l ++ [x])) d)
  | _ => Raise AttributeError
  end.
Definition getitem_extend (k : string) (xs : list pyval) (d : pydict)
  : result pydict :=
  v <- getitem d k ;;
  match v with
  | VList l => Ok (dict_set k (VList (l ++ xs)) d)
  | _ => Raise AttributeError
  end.

(** [sorted(d.items())]: keys are distinct, so tuples are ordered by key
    alone; [dict(...)] of the sorted pairs keeps that order.  Insertion into
    a sorted list, before the first entry whose key is not smaller. *)
Fixpoint insert_item (kv : string * pyval) (d : pydict) : pydict :=
  match d with
  | [] => [kv]
  | kv' :: d' =>
      if String.ltb (fst kv') (fst kv) then kv' :: insert_item kv d'
      else kv :: kv' :: d'
  end.
Definition sorted_items (d : pydict) : pydict :=
  fold_right insert_item [] d.

(** ** Configuration models ([transform_model.py]) *)

(** The message of a [ValueError] raised by a validator, as pydantic
    collects it into its [ValidationError]. *)
Definition error_msgs (e : exn) : list string :=
  match e with
  | ValueError m => [m]
  | ValidationError ms => ms
  | _ => ["error"]
  end.

(** pydantic runs a model's validators, collects what they raise and raises
    one [ValidationError] when anything was collected. *)
Definition validated {A : Type} (errors : list string) (a : A) : result A :=
  match errors with
  | [] => Ok a
  | _ :: _ => Raise (ValidationError errors)
  end.

Definition of_dict (o : option pydict) : pyval :=
  match o with Some d => VDict d | None => VNone end.
Definition of_str (o : option string) : pyval :=
  match o with Some s => VStr s | None => VNone end.

Module PredefinedFunctionModel.
Record t : Type := { name : string; params : option pydict }.
End PredefinedFunctionModel.

Module TransformModel.

(** [Callable | PredefinedFunctionModel] *)
Inductive method_t : Type :=
| Callable (f : string)
| Predefined (p : PredefinedFunctionModel.t).

(** Functions and model instances are truthy objects. *)
Definition of_method (o : option method_t) : pyval :=
  match o with
  | Some (Callable f) => VObj f
  | Some (Predefined p) => VObj "PredefinedFunctionModel"
  | None => VNone
  end.

Record t : Type := {
  filter_map : option pydict;
  kwargs : option pydict;
  method : option method_t;
  for_each : option method_t;
  static_map : option pydict
}.

Section Validators.
(** [str.lower] *)
Variable lower : string -> string.

(** [{key.lower(): value for (key, value) in v.items()}] *)
Definition _lower_map_keys (v : option pydict) : option pydict :=
  match v with
  | Some d =>
      Some (fold_left
              (fun acc kv => dict_set (lower (fst kv)) (snd kv) acc) d [])
  | None => None
  end.

Definition fields (v : t) : list pyval :=
  [of_dict v.(filter_map); of_dict v.(static_map);
   of_method v.(method); of_method v.(for_each)].

Definition _required_transform (v : t) : result t :=
  if negb (py_any (fields v)) then
    Raise (ValueError "Either map or method must be defined.")
  else if (count_None (fields v) <? 2)%nat then
    Raise (ValueError "Only one transform mechanism can be defined.")
  else Ok v.

(** Constructing a [TransformModel]: the field validators, then the root
    validator on the validated values. *)
Definition construct (doc : t) : result t :=
  let v := {| filter_map := _lower_map_keys doc.(filter_map);
              kwargs := doc.(kwargs);
              method := doc.(method);
              for_each := doc.(for_each);
              static_map := _lower_map_keys doc.(static_map) |} in
  match _required_transform v with
  | Ok v' => Ok v'
  | Raise e => Raise (ValidationError (error_msgs e))
  end.
End Validators.

(** The number of mechanisms given in a document. *)
Definition is_set {A : Type} (o : option A) : nat :=
  match o with Some _ => 1 | None => 0 end.
Definition mechanisms (doc : t) : nat :=
  is_set doc.(filter_map) + is_set doc.(static_map)
  + is_set doc.(method) + is_set doc.(for_each).
End TransformModel.

Module PathTransformModel.
Record t : Type := { default : option string; path : option string }.

Section Validators.
(** [jmespath.compile]: [true] when the expression compiles, [false]
    when it raises; the compiled expression itself is discarded. *)
Variable jmespath_compile : string -> bool.

Definition _validate_path (v : option string) : result (option string) :=
  match v with
  | Some p =>
      if jmespath_compile p then Ok v
      else Raise (ValueError "A valid path must be provided.")
  | None => Ok v
  end.

Definition _default_or_path (default path : option string) : result unit :=
  if negb (py_any [of_str default; of_str path]) then
    Raise (ValueError "Either default or path or both must be defined.")
  else Ok tt.

(** The errors of the two validators; a field whose validator raised is
    missing from the values the root validator reads. *)
Definition errors (default path : option string) : list string :=
  let '(path', e1) :=
    match _validate_path path with
    | Ok p => (p, [])
    | Raise e => (None, error_msgs e)
    end in
  match _default_or_path default path' with
  | Ok _ => e1
  | Raise e => e1 ++ error_msgs e
  end.

Definition construct (doc : t) : result t :=
  validated (errors doc.(default) doc.(path)) doc.
End Validators.
End PathTransformModel.

Module MetadataTransformModel.
(** The [transform] entry of a document: one rule or a list of rules. *)
Inductive transform_doc : Type :=
| One (r : TransformModel.t)
| Many (rs : list TransformModel.t).

Record doc : Type := {
  doc_default : option string;
  doc_path : option string;
  doc_transform : option transform_doc
}.

Record t : Type := {
  default : option string;
  path : option string;
  transform : option (list TransformModel.t)
}.

Definition _always_array (value : transform_doc) : list TransformModel.t :=
  match value with
  | One r => [r]
  | Many rs => rs
  end.

Section Validators.
Variable lower : string -> string.
Variable jmespath_compile : string -> bool.

(** Validating [list[TransformModel]]: every element is constructed and
    the errors of all of them are collected. *)
Fixpoint transform_list (rs : list TransformModel.t)
  : list TransformModel.t * list string :=
  match rs with
  | [] => ([], [])
  | r :: rs' =>
      let '(ms, es) := transform_list rs' in
      match TransformModel.construct lower r with
      | Ok m => (m :: ms, es)
      | Raise e => (ms, error_msgs e ++ es)
      end
  end.

Definition construct (d : doc) : result t :=
  let '(tr, e_tr) :=
    match d.(doc_transform) with
    | Some v =>
        let '(ms, es) := transform_list (_always_array v) in (Some ms, es)
    | None => (None, [])
    end in
  validated
    (PathTransformModel.errors jmespath_compile d.(doc_default) d.(doc_path)
     ++ e_tr)
    {| default := d.(doc_default); path := d.(doc_path); transform := tr |}.
End Validators.
End MetadataTransformModel.

Module IndicatorTransformModel.
(** The fields the root validator reads, and the required [type]; the
    other fields of the class are optional and no validator reads them. *)
Record doc : Type := {
  doc_type : option MetadataTransformModel.doc;
  doc_value1 : option MetadataTransformModel.doc;
  doc_value2 : option MetadataTransformModel.doc;
  doc_value3 : option MetadataTransformModel.doc
}.

Record t : Type := {
  type : MetadataTransformModel.t;
  value1 : option MetadataTransformModel.t;
  value2 : option MetadataTransformModel.t;
  value3 : option MetadataTransformModel.t
}.

(** A model instance is a truthy object. *)
Definition of_model (o : option MetadataTransformModel.t) : pyval :=
  match o with Some _ => VObj "MetadataTransformModel" | None => VNone end.

Definition _one_indicator_value
  (value1 value2 value3 : option MetadataTransformModel.t) : result unit :=
  if negb (py_any [of_model value1; of_model value2; of_model value3]) then
    Raise (ValueError
      "An indicator transform must be defined (e.g., summary, value1, value2, value3).")
  else Ok tt.

Section Validators.
Variable lower : string -> string.
Variable jmespath_compile : string -> bool.

(** An optional nested model: the validated value (absent when its
    construction failed) and the errors. *)
Definition optional (d : option MetadataTransformModel.doc)
  : option MetadataTransformModel.t * list string :=
  match d with
  | None => (None, [])
  | Some d' =>
      match MetadataTransformModel.construct lower jmespath_compile d' with
      | Ok m => (Some m, [])
      | Raise e => (None, error_msgs e)
      end
  end.

Definition construct (d : doc) : result t :=
  let '(ty, e0) :=
    match d.(doc_type) with
    | None => (None, ["field required"])
    | Some _ => optional d.(doc_type)
    end in
  let '(v1, e1) := optional d.(doc_value1) in
  let '(v2, e2) := optional d.(doc_value2) in
  let '(v3, e3) := optional d.(doc_value3) in
  let e4 :=
    match _one_indicator_value v1 v2 v3 with
    | Ok _ => []
    | Raise e => error_msgs e
    end in
  match ty with
  | Some ty' =>
      validated (e0 ++ e1 ++ e2 ++ e3 ++ e4)
        {| type := ty'; value1 := v1; value2 := v2; value3 := v3 |}
  | None => Raise (ValidationError (e0 ++ e1 ++ e2 ++ e3 ++ e4))
  end.
End Validators.
End IndicatorTransformModel.

(** ** One record's transform ([ti_transform.py], class [TiTransform]) *)

Inductive transform_model : Type :=
| GroupTransformModel
| IndicatorTransformModel.

(** What reaches the logger: the level, the message or its fixed part, and
    the values formatted into it. *)
Inductive log_record : Type :=
| Trace (msg : string) (n : nat)
| Info (msg : string) (args : list pyval)
| Warning (field cause : string) (context : pydict)
| LogException (msg : string).

(** [a[k]] and [a.get(k, default)] on an arbitrary value. *)
Definition subscript (a : pyval) (k : string) : result pyval :=
  match a with
  | VDict d => getitem d k
  | _ => Raise TypeError
  end.
Definition method_get (a : pyval) (k : string) (default : pyval)
  : result pyval :=
  match a with
  | VDict d => Ok (get_default d k default)
  | _ => Raise AttributeError
  end.

Module TiTransform.

(** The attributes of the object the methods read and write.  [transform]
    is the model selected for the record, if any was.  An exception
    abandons the record, so the state it leaves behind is not kept. *)
Record t : Type := {
  transformed_item : pydict;
  adhoc_groups : list pyval;
  adhoc_indicators : list pyval;
  seperate_batch_associations : bool;
  transform : option transform_model;
  log : list log_record
}.

Definition with_item (self : t) (item : pydict) : t :=
  {| transformed_item := item;
     adhoc_groups := self.(adhoc_groups);
     adhoc_indicators := self.(adhoc_indicators);
     seperate_batch_associations := self.(seperate_batch_associations);
     transform := self.(transform);
     log := self.(log) |}.

Definition with_log (self : t) (r : log_record) : t :=
  {| transformed_item := self.(transformed_item);
     adhoc_groups := self.(adhoc_groups);
     adhoc_indicators := self.(adhoc_indicators);
     seperate_batch_associations := self.(seperate_batch_associations);
     transform := self.(transform);
     log := self.(log) ++ [r] |}.

(** [self.transformed_item.setdefault(k, []).append(x)] with [x] already
    evaluated. *)
Definition item_append (k : string) (x : pyval) (self : t) : result t :=
  l <- setdefault_list k self.(transformed_item) ;;
  Ok (with_item self (dict_set k (VList (l ++ [x])) self.(transformed_item))).

Definition add_custom_association
  (summary indicator_type association_type : pyval) (self : t) : result t :=
  if negb self.(seperate_batch_associations) then
    Raise (TransformException "associatedIndicator"
      "Cannot add associated indicator to IndicatorTransformModel when seperate_batch_associations is False."
      self.(transformed_item))
  else
    _ <- setdefault_list "association" self.(transformed_item) ;;
    ref_1 <- getitem self.(transformed_item) "summary" ;;
    type_1 <- getitem self.(transformed_item) "type" ;;
    item_append "association"
      (VDict [("ref_1", ref_1); ("type_1", type_1); ("ref_2", summary);
              ("type_2", indicator_type);
              ("association_type", association_type)]) self.

Definition add_associated_indicator (summary indicator_type : pyval)
  (self : t) : result t :=
  if negb self.(seperate_batch_associations) then
    item_append "associatedIndicators"
      (VDict [("summary", summary); ("indicatorType", indicator_type)]) self
  else
    _ <- setdefault_list "association" self.(transformed_item) ;;
    ref_1 <- getitem self.(transformed_item) "xid" ;;
    item_append "association"
      (VDict [("ref_1", ref_1); ("ref_2", summary);
              ("type_2", indicator_type)]) self.

Definition add_associated_group (group_xid : pyval) (self : t) : result t :=
  if negb self.(seperate_batch_associations) then
    match self.(transform) with
    | Some GroupTransformModel =>
        item_append "associatedGroupXid" group_xid self
    | Some IndicatorTransformModel =>
        item_append "associatedGroups" (VDict [("groupXid", group_xid)]) self
    | None => Ok self
    end
  else
    match self.(transform) with
    | Some GroupTransformModel =>
        _ <- setdefault_list "association" self.(transformed_item) ;;
        xid <- getitem self.(transformed_item) "xid" ;;
        self' <- item_append "association"
                   (VDict [("ref_1", group_xid); ("ref_2", xid)]) self ;;
        Ok (with_log self'
              (Info "Added associated group with xid: %s to %s"
                 [group_xid; xid]))
    | Some IndicatorTransformModel =>
        _ <- setdefault_list "association" self.(transformed_item) ;;
        summary <- getitem self.(transformed_item) "summary" ;;
        type_ <- getitem self.(transformed_item) "type" ;;
        self' <- item_append "association"
                   (VDict [("ref_1", group_xid); ("ref_2", summary);
                           ("type_2", type_)]) self ;;
        Ok (with_log self'
              (Info "Added associated group with xid: %s to %s"
                 [group_xid; summary]))
    | None => Ok self
    end.

(** The dictionary [add_attribute] builds before it appends it. *)
Definition attribute_data (type_ value displayed pinned source : pyval)
  : pydict :=
  let attribute_data := [("type", type_); ("value", value)] in
  let attribute_data :=
    if is_True displayed then dict_set "displayed" displayed attribute_data
    else attribute_data in
  let attribute_data :=
    if is_True pinned then dict_set "pinned" displayed attribute_data
    else attribute_data in
  if negb (is_none source) then dict_set "source" source attribute_data
  else attribute_data.

Definition add_attribute (type_ value displayed pinned source : pyval)
  (self : t) : result t :=
  if negb (is_none type_) && negb (is_none value) then
    item_append "attribute"
      (VDict (attribute_data type_ value displayed pinned source)) self
  else Ok self.

Definition add_file_occurrence (file_name path date : pyval) (self : t)
  : result t :=
  item_append "fileOccurrence"
    (VDict (filter (fun kv => truthy (snd kv))
              [("fileName", file_name); ("path", path); ("date", date)]))
    self.

Definition add_group (group_data : pyval) (self : t) : result t :=
  Ok {| transformed_item := self.(transformed_item);
        adhoc_groups := self.(adhoc_groups) ++ [group_data];
        adhoc_indicators := self.(adhoc_indicators);
        seperate_batch_associations := self.(seperate_batch_associations);
        transform := self.(transform);
        log := self.(log) |}.

Definition add_indicator (indicator_data : pyval) (self : t) : result t :=
  Ok {| transformed_item := self.(transformed_item);
        adhoc_groups := self.(adhoc_groups);
        adhoc_indicators := self.(adhoc_indicators) ++ [indicator_data];
        seperate_batch_associations := self.(seperate_batch_associations);
        transform := self.(transform);
        log := self.(log) |}.

(** [self.transformed_item[key] = value]; keys of the modelled
    dictionaries are strings, a list or a dict is not hashable. *)
Definition item_set (key value : pyval) (self : t) : result t :=
  match key with
  | VStr k => Ok (with_item self (dict_set k value self.(transformed_item)))
  | VList _ | VDict _ => Raise TypeError
  | _ => Raise Unsupported
  end.

Definition add_metadata (key value : pyval) (self : t) : result t :=
  if forallb truthy [key; value] then item_set key value self
  else Ok self.

Definition add_name (name : pyval) (self : t) : result t :=
  if negb (is_none name) then item_set (VStr "name") name self
  else Ok self.

Definition add_security_label (name color description : pyval) (self : t)
  : result t :=
  if negb (is_none name) then
    let label_data := [("name", name)] in
    let label_data :=
      if negb (is_none color) then dict_set "color" color label_data
      else label_data in
    let label_data :=
      if negb (is_none description) then
        dict_set "description" description label_data
      else label_data in
    item_append "securityLabel" (VDict label_data) self
  else Ok self.

Definition add_summary (value : pyval) (self : t) : result t :=
  if negb (is_none value) then item_set (VStr "summary") value self
  else Ok self.

Definition add_tag (name : pyval) (self : t) : result t :=
  if negb (is_none name) then
    item_append "tag" (VDict [("name", name)]) self
  else Ok self.

Section Conversions.
(** The built-ins [int] and [float]: the integer, or the bit pattern of
    the float, or the exception they raise. *)
Variable py_int : pyval -> result Z.
Variable py_float : pyval -> result Z.

Definition add_confidence (confidence : pyval) (self : t) : result t :=
  if negb (is_none confidence) then
    n <- py_int confidence ;;
    item_set (VStr "confidence") (VInt n) self
  else Ok self.

Definition add_rating (rating : pyval) (self : t) : result t :=
  if negb (is_none rating) then
    f <- py_float rating ;;
    item_set (VStr "rating") (VFloat f) self
  else Ok self.
End Conversions.

(** *** The v3 restructuring, one definition per block of [v3_api] *)

Definition v3_associated_groups (v3_data : pydict) : result pydict :=
  if truthy (get v3_data "associatedGroupXid") then
    xids <- getitem v3_data "associatedGroupXid" ;;
    gs <- py_iter xids ;;
    let xid := fold_left (fun acc g => dict_set "xid" g acc) gs [] in
    let v3_data :=
      dict_set "associatedGroups" (VDict [("data", VList [VDict xid])])
        v3_data in
    dict_del "associatedGroupXid" v3_data
  else Ok v3_data.

Definition v3_attribute (a : pyval) : result pyval :=
  type_ <- subscript a "type" ;;
  value <- subscript a "value" ;;
  pinned <- method_get a "pinned" (VBool false) ;;
  source <- method_get a "source" VNone ;;
  Ok (VDict [("type", type_); ("value", value); ("pinned", pinned);
             ("source", source)]).

Definition v3_tag (t : pyval) : result pyval :=
  name <- subscript t "name" ;;
  Ok (VDict [("name", name)]).

Definition v3_security_label (s : pyval) : result pyval :=
  name <- subscript s "name" ;;
  color <- method_get s "color" VNone ;;
  description <- method_get s "description" VNone ;;
  Ok (VDict [("name", name); ("color", color);
             ("description", description)]).

Definition v3_file_occurrence (f : pyval) : result pyval :=
  file_name <- method_get f "fileName" VNone ;;
  path <- method_get f "path" VNone ;;
  date <- method_get f "date" VNone ;;
  Ok (VDict [("fileName", file_name); ("path", path); ("date", date)]).

(** [if v3_data.get(k): v3_data[plural] = {'data': [f(x) for x in
    v3_data[k]]}; del v3_data[k]] *)
Definition v3_block (k plural : string) (f : pyval -> result pyval)
  (v3_data : pydict) : result pydict :=
  if truthy (get v3_data k) then
    xs <- getitem v3_data k ;;
    it <- py_iter xs ;;
    data <- mapM f it ;;
    let v3_data := dict_set plural (VDict [("data", VList data)]) v3_data in
    dict_del k v3_data
  else Ok v3_data.

Definition v3_restructure (transformed_item : pydict) : result pydict :=
  v3_data <- v3_associated_groups transformed_item ;;
  v3_data <- v3_block "attribute" "attributes" v3_attribute v3_data ;;
  v3_data <- v3_block "tag" "tags" v3_tag v3_data ;;
  v3_data <-
    v3_block "securityLabel" "securityLabels" v3_security_label v3_data ;;
  v3_block "fileOccurrence" "fileOccurrences" v3_file_occurrence v3_data.

Section Serializers.
(** [TransformABC._process] is in [transform_abc.py]: it fills
    [transformed_item], selects [transform] and may raise. *)
Variable _process : t -> result t.

(** Each property returns its value and the object as [_process] left
    it. *)
Definition batch (self : t) : result (pydict * t) :=
  self' <- _process self ;;
  Ok (sorted_items self'.(transformed_item), self').

Definition v3_api (self : t) : result (pydict * t) :=
  self' <- _process self ;;
  v3_data <- v3_restructure self'.(transformed_item) ;;
  Ok (v3_data, self').
End Serializers.
End TiTransform.

(** ** The collection ([ti_transform.py], class [TiTransforms]) *)

Module TiTransforms.
Section Loops.
Variable _process : TiTransform.t -> result TiTransform.t.
Variable raise_exceptions : bool.
Variable seperate_batch_associations : bool.

(** The three [except] clauses: what is logged, and whether the
    exception is raised again. *)
Definition handler (e : exn) : log_record * bool :=
  match e with
  | NoValidTransformException =>
      (LogException "feature=ti-transforms, event=runtime-error", false)
  | TransformException field cause context =>
      (Warning field cause context, raise_exceptions)
  | _ =>
      (LogException "feature=ti-transforms, event=transform-error",
       raise_exceptions)
  end.

Definition progress (feature : string) (index : nat)
  (log : list log_record) : list log_record :=
  if negb (index =? 0)%nat && (index mod 1000 =? 0)%nat
  then log ++ [Trace feature index] else log.

(** The body of the [batch] loop after [t.batch] returned [data]. *)
Definition batch_step (data : pydict) (t : TiTransform.t) (batch : pydict)
  : result pydict :=
  '(data, batch) <-
    (if seperate_batch_associations then
       let '(associations, data) :=
         dict_pop_default "association" (VList []) data in
       batch <- setdefault_extend "association" associations batch ;;
       Ok (data, batch)
     else Ok (data, batch)) ;;
  batch <-
    match t.(TiTransform.transform) with
    | Some GroupTransformModel => getitem_append "group" (VDict data) batch
    | Some IndicatorTransformModel =>
        getitem_append "indicator" (VDict data) batch
    | None => Ok batch
    end ;;
  batch <- getitem_extend "group" t.(TiTransform.adhoc_groups) batch ;;
  getitem_extend "indicator" t.(TiTransform.adhoc_indicators) batch.

Fixpoint batch_loop (index : nat) (ts : list TiTransform.t)
  (log : list log_record) (batch : pydict)
  : list log_record * result pydict :=
  match ts with
  | [] => (log, Ok batch)
  | t :: ts' =>
      let log := progress "feature=ti-transform-batch, items=" index log in
      match TiTransform.batch _process t with
      | Raise e =>
          let '(r, reraise) := handler e in
          if reraise then (log ++ [r], Raise e)
          else batch_loop (S index) ts' (log ++ [r]) batch
      | Ok (data, t') =>
          match batch_step data t' batch with
          | Ok batch' => batch_loop (S index) ts' log batch'
          | Raise e => (log, Raise e)
          end
      end
  end.

(** [transformed_collection] is the list [process] builds, one
    [TiTransform] per input record. *)
Definition batch (transformed_collection : list TiTransform.t)
  : list log_record * result pydict :=
  batch_loop 0 transformed_collection
    [Trace "feature=ti-transform-batch, ti-count="
       (length transformed_collection)]
    [("group", VList []); ("indicator", VList [])].

(** [v3_data.setdefault(data.pop('type'), []).extend(data)] *)
Definition v3_step (data : pydict) (v3_data : pydict) : result pydict :=
  '(type_, data) <- dict_pop "type" data ;;
  match type_ with
  | VStr k => setdefault_extend k (VDict data) v3_data
  | VList _ | VDict _ => Raise TypeError
  | _ => Raise Unsupported
  end.

Fixpoint v3_loop (index : nat) (ts : list TiTransform.t)
  (log : list log_record) (v3_data : pydict)
  : list log_record * result pydict :=
  match ts with
  | [] => (log, Ok v3_data)
  | t :: ts' =>
      let log := progress "feature=ti-transform-v3, items=" index log in
      match TiTransform.v3_api _process t with
      | Raise e =>
          let '(r, reraise) := handler e in
          if reraise then (log ++ [r], Raise e)
          else v3_loop (S index) ts' (log ++ [r]) v3_data
      | Ok (data, _) =>
          match v3_step data v3_data with
          | Ok v3_data' => v3_loop (S index) ts' log v3_data'
          | Raise e => (log, Raise e)
          end
      end
  end.

Definition v3_api (transformed_collection : list TiTransform.t)
  : list log_record * result pydict :=
  v3_loop 0 transformed_collection
    [Trace "feature=ti-transform-v3, ti-count="
       (length transformed_collection)]
    [].
End Loops.
End TiTransforms.

(** ** The helper calls as data *)

(** A call of one of the helpers that write into the item, with its
    arguments, so that statements can range over all of them. *)
Inductive helper_call : Type :=
| AddAttribute (type_ value displayed pinned source : pyval)
| AddTag (name : pyval)
| AddSecurityLabel (name color description : pyval)
| AddFileOccurrence (file_name path date : pyval)
| AddMetadata (key value : pyval)
| AddName (name : pyval)
| AddSummary (value : pyval)
| AddConfidence (confidence : pyval)
| AddRating (rating : pyval)
| AddAssociatedGroup (group_xid : pyval)
| AddAssociatedIndicator (summary indicator_type : pyval).

Definition call (py_int py_float : pyval -> result Z) (c : helper_call)
  : TiTransform.t -> result TiTransform.t :=
  match c with
  | AddAttribute type_ value displayed pinned source =>
      TiTransform.add_attribute type_ value displayed pinned source
  | AddTag name => TiTransform.add_tag name
  | AddSecurityLabel name color description =>
      TiTransform.add_security_label name color description
  | AddFileOccurrence file_name path date =>
      TiTransform.add_file_occurrence file_name path date
  | AddMetadata key value => TiTransform.add_metadata key value
  | AddName name => TiTransform.add_name name
  | AddSummary value => TiTransform.add_summary value
  | AddConfidence confidence => TiTransform.add_confidence py_int confidence
  | AddRating rating => TiTransform.add_rating py_float rating
  | AddAssociatedGroup group_xid => TiTransform.add_associated_group group_xid
  | AddAssociatedIndicator summary indicator_type =>
      TiTransform.add_associated_indicator summary indicator_type
  end.

(** The call is made with a null key or value argument (for a file
    occurrence: with nothing but nulls). *)
Definition null_call (c : helper_call) : bool :=
  match c with
  | AddAttribute type_ value _ _ _ => is_none type_ || is_none value
  | AddTag name => is_none name
  | AddSecurityLabel name _ _ => is_none name
  | AddFileOccurrence file_name path date =>
      is_none file_name && is_none path && is_none date
  | AddMetadata key value => is_none key || is_none value
  | AddName name => is_none name
  | AddSummary value => is_none value
  | AddConfidence confidence => is_none confidence
  | AddRating rating => is_none rating
  | AddAssociatedGroup group_xid => is_none group_xid
  | AddAssociatedIndicator summary indicator_type =>
      is_none summary || is_none indicator_type
  end.

(** The helpers whose body is under a test of its key or value argument. *)
Definition null_guarded (c : helper_call) : bool :=
  match c with
  | AddFileOccurrence _ _ _ | AddAssociatedGroup _
  | AddAssociatedIndicator _ _ => false
  | _ => true
  end.

(** The helpers that test or filter what they write. *)
Definition null_filtering (c : helper_call) : bool :=
  match c with
  | AddAssociatedGroup _ | AddAssociatedIndicator _ _ => false
  | _ => true
  end.

(** [v] is [None], or a list or dict that holds [None] at some depth. *)
Fixpoint has_none (v : pyval) : bool :=
  match v with
  | VNone => true
  | VList l => existsb has_none l
  | VDict d => existsb (fun kv => let '(_, x) := kv in has_none x) d
  | _ => false
  end.
Definition dict_has_none (d : pydict) : bool := has_none (VDict d).

(** An argument is null, or holds no null. *)
Definition clean (v : pyval) : bool := is_none v || negb (has_none v).

(** Every argument of the call is null or holds no null, and the
    [displayed] flag of an attribute is not null. *)
Definition clean_call (c : helper_call) : bool :=
  match c with
  | AddAttribute type_ value displayed pinned source =>
      clean type_ && clean value && negb (has_none displayed) && clean source
  | AddTag name => clean name
  | AddSecurityLabel name color description =>
      clean name && clean color && clean description
  | AddFileOccurrence file_name path date =>
      clean file_name && clean path && clean date
  | AddMetadata key value => clean key && clean value
  | AddName name => clean name
  | AddSummary value => clean value
  | AddConfidence confidence => clean confidence
  | AddRating rating => clean rating
  | AddAssociatedGroup group_xid => clean group_xid
  | AddAssociatedIndicator summary indicator_type =>
      clean summary && clean indicator_type
  end.

(** ** The two envelopes *)

(** The entries of one kind: in the batch form a list under the singular
    key, in the v3 form the list under ['data'] of the plural key. *)
Definition batch_entries (k : string) (batch : pydict) : list pyval :=
  match dict_get k batch with
  | Some (VList l) => l
  | _ => []
  end.

(** What an entry holds under a key ([None] when the key is absent), and
    under each key of a list. *)
Definition field (k : string) (e : pyval) : pyval :=
  match e with
  | VDict d => get d k
  | _ => VNone
  end.
Definition content (keys : list string) (e : pyval) : list pyval :=
  map (fun k => field k e) keys.

Definition has_key (k : string) (e : pyval) : bool :=
  match e with
  | VDict d => match dict_get k d with Some _ => true | None => false end
  | _ => false
  end.

(** [e] is a dict that has every key of [required]. *)
Definition has_keys (required : list string) (e : pyval) : bool :=
  match e with
  | VDict d => forallb (fun k => has_key k e) required
  | _ => false
  end.




Definition absent (k : string) (item : pydict) : bool :=
  match dict_get k item with
  | None => true
  | Some _ => false
  end.

Definition list_or_absent (k : string) (item : pydict) : bool :=
  match dict_get k item with
  | None | Some (VList _) => true
  | Some _ => false
  end.


(** The order [sorted] leaves two neighbouring items in. *)
Definition key_le (a b : string * pyval) : Prop :=
  String.leb (fst a) (fst b) = true.

(** ** What the helpers and the loops touch *)

(** The keys of the transformed item a helper call may write. *)
Definition written_keys (c : helper_call) (self : TiTransform.t)
  : list string :=
  match c with
  | AddAttribute _ _ _ _ _ => ["attribute"]
  | AddTag _ => ["tag"]
  | AddSecurityLabel _ _ _ => ["securityLabel"]
  | AddFileOccurrence _ _ _ => ["fileOccurrence"]
  | AddMetadata (VStr k) _ => [k]
  | AddMetadata _ _ => []
  | AddName _ => ["name"]
  | AddSummary _ => ["summary"]
  | AddConfidence _ => ["confidence"]
  | AddRating _ => ["rating"]
  | AddAssociatedGroup _ =>
      if self.(TiTransform.seperate_batch_associations) then ["association"]
      else
        match self.(TiTransform.transform) with
        | Some GroupTransformModel => ["associatedGroupXid"]
        | Some IndicatorTransformModel => ["associatedGroups"]
        | None => []
        end
  | AddAssociatedIndicator _ _ =>
      if self.(TiTransform.seperate_batch_associations) then ["association"]
      else ["associatedIndicators"]
  end.

(** [self'] is [self] but for the entries of [keys] and for the log. *)
Definition unchanged_outside (keys : list string) (self self' : TiTransform.t)
  : Prop :=
  (forall q, ~ In q keys ->
             dict_get q self'.(TiTransform.transformed_item)
             = dict_get q self.(TiTransform.transformed_item)) /\
  self'.(TiTransform.adhoc_groups) = self.(TiTransform.adhoc_groups) /\
  self'.(TiTransform.adhoc_indicators) = self.(TiTransform.adhoc_indicators) /\
  self'.(TiTransform.seperate_batch_associations)
  = self.(TiTransform.seperate_batch_associations) /\
  self'.(TiTransform.transform) = self.(TiTransform.transform).

(** What the [batch] loop appends for a record under ['group'] (for
    [GroupTransformModel]) or ['indicator'] (for [IndicatorTransformModel]):
    the record's data when its model is of that kind, without its
    ['association'] entry when associations are collected apart, then its
    adhoc entries; nothing when [t.batch] raises. *)
Definition bucket_part (_process : TiTransform.t -> result TiTransform.t)
  (seperate : bool) (kind : transform_model) (t : TiTransform.t)
  : list pyval :=
  match TiTransform.batch _process t with
  | Ok (data, t') =>
      let data :=
        if seperate then snd (dict_pop_default "association" (VList []) data)
        else data in
      match t'.(TiTransform.transform), kind with
      | Some GroupTransformModel, GroupTransformModel
      | Some IndicatorTransformModel, IndicatorTransformModel => [VDict data]
      | _, _ => []
      end
      ++ match kind with
         | GroupTransformModel => t'.(TiTransform.adhoc_groups)
         | IndicatorTransformModel => t'.(TiTransform.adhoc_indicators)
         end
  | Raise _ => []
  end.

(** The associations of a record, as the [batch] loop iterates them. *)
Definition association_part (_process : TiTransform.t -> result TiTransform.t)
  (t : TiTransform.t) : list pyval :=
  match TiTransform.batch _process t with
  | Ok (data, _) =>
      match py_iter (fst (dict_pop_default "association" (VList []) data)) with
      | Ok l => l
      | Raise _ => []
      end
  | Raise _ => []
  end.

(** The keys the v3 restructuring reads and the keys it writes. *)
Definition singular_keys : list string :=
  ["associatedGroupXid"; "attribute"; "tag"; "securityLabel";
   "fileOccurrence"].
Definition plural_keys : list string :=
  ["associatedGroups"; "attributes"; "tags"; "securityLabels";
   "fileOccurrences"].

(** ** The helpers without a null test *)

(** For a call of [add_file_occurrence], [add_associated_group] or
    [add_associated_indicator]: the key it appends under and the entry it
    appends there, read off the object before the call; nothing for
    [add_associated_group] while no model is selected, and nothing for the
    other helpers. *)
Definition appended_entry (c : helper_call) (self : TiTransform.t)
  : option (string * pyval) :=
  let item := self.(TiTransform.transformed_item) in
  let seperate := self.(TiTransform.seperate_batch_associations) in
  match c with
  | AddFileOccurrence file_name path date =>
      Some ("fileOccurrence",
            VDict (filter (fun kv => truthy (snd kv))
                     [("fileName", file_name); ("path", path);
                      ("date", date)]))
  | AddAssociatedGroup group_xid =>
      match self.(TiTransform.transform) with
      | Some GroupTransformModel =>
          if seperate then
            Some ("association",
                  VDict [("ref_1", group_xid); ("ref_2", get item "xid")])
          else Some ("associatedGroupXid", group_xid)
      | Some IndicatorTransformModel =>
          if seperate then
            Some ("association",
                  VDict [("ref_1", group_xid); ("ref_2", get item "summary");
                         ("type_2", get item "type")])
          else Some ("associatedGroups", VDict [("groupXid", group_xid)])
      | None => None
      end
  | AddAssociatedIndicator summary indicator_type =>
      if seperate then
        Some ("association",
              VDict [("ref_1", get item "xid"); ("ref_2", summary);
                     ("type_2", indicator_type)])
      else
        Some ("associatedIndicators",
              VDict [("summary", summary);
                     ("indicatorType", indicator_type)])
  | _ => None
  end.

(** The keys of the item such a call subscripts to build its entry. *)
Definition needed_keys (c : helper_call) (self : TiTransform.t)
  : list string :=
  if self.(TiTransform.seperate_batch_associations) then
    match c with
    | AddAssociatedGroup _ =>
        match self.(TiTransform.transform) with
        | Some GroupTransformModel => ["xid"]
        | Some IndicatorTransformModel => ["summary"; "type"]
        | None => []
        end
    | AddAssociatedIndicator _ _ => ["xid"]
    | _ => []
    end
  else [].

(** The entry the call appends under is absent or a list, and the item has
    the keys the call subscripts. *)
Definition can_append (c : helper_call) (self : TiTransform.t) : bool :=
  let item := self.(TiTransform.transformed_item) in
  match appended_entry c self with
  | Some (k, _) =>
      list_or_absent k item
      && forallb (fun q => negb (absent q item)) (needed_keys c self)
  | None => true
  end.

(** The arguments of the call hold no null: for the association helpers
    none is null or holds one, for the other helpers [clean_call]. *)
Definition null_free_call (c : helper_call) : bool :=
  match c with
  | AddAssociatedGroup group_xid => negb (has_none group_xid)
  | AddAssociatedIndicator summary indicator_type =>
      negb (has_none summary) && negb (has_none indicator_type)
  | _ => clean_call c
  end.

(** ** Sample inputs *)

(** A rule document that gives two mechanisms, [filter_map] and
    [static_map], both non-empty. *)
Definition two_maps : TransformModel.t :=
  {| TransformModel.filter_map := Some [("a", VStr "b")];
     TransformModel.kwargs := Some [];
     TransformModel.method := None;
     TransformModel.for_each := None;
     TransformModel.static_map := Some [("c", VStr "d")] |}.

(** A stand-in for [jmespath.compile] that, like it, rejects the empty
    expression, and also the lone bracket. *)
Definition sample_compile (s : string) : bool :=
  negb (s =? "") && negb (s =? "[").

Definition sample_path (p : string) : PathTransformModel.t :=
  {| PathTransformModel.default := None; PathTransformModel.path := Some p |}.

Definition sample_field (p : string) : MetadataTransformModel.doc :=
  {| MetadataTransformModel.doc_default := None;
     MetadataTransformModel.doc_path := Some p;
     MetadataTransformModel.doc_transform := None |}.

(** Stand-ins for the built-ins [int] and [float], on the values whose
    conversion needs no parsing. *)
Definition sample_int (v : pyval) : result Z :=
  match v with
  | VInt z => Ok z
  | VBool b => Ok (if b then 1 else 0)%Z
  | _ => Raise (ValueError "invalid literal for int()")
  end.
Definition sample_float (v : pyval) : result Z :=
  match v with
  | VFloat bits => Ok bits
  | _ => Raise (ValueError "could not convert to float")
  end.

Definition sample_self (transform : option transform_model)
  (seperate_batch_associations : bool) (item : pydict) : TiTransform.t :=
  {| TiTransform.transformed_item := item;
     TiTransform.adhoc_groups := [];
     TiTransform.adhoc_indicators := [];
     TiTransform.seperate_batch_associations := seperate_batch_associations;
     TiTransform.transform := transform;
     TiTransform.log := [] |}.

Definition group_item : pydict :=
  [("type", VStr "Adversary"); ("name", VStr "apt-0"); ("xid", VStr "x-1")].
Definition indicator_item : pydict :=
  [("type", VStr "Address"); ("summary", VStr "1.2.3.4"); ("xid", VStr "x-2")].

Definition group_self : TiTransform.t :=
  sample_self (Some GroupTransformModel) false group_item.

(** A stand-in for [_process] on an object that is already filled: it
    raises what the item asks for under ['raise'] and returns the object
    otherwise. *)
Definition sample_process (self : TiTransform.t) : result TiTransform.t :=
  match dict_get "raise" self.(TiTransform.transformed_item) with
  | None => Ok self
  | Some v =>
      if truthy v then
        if is_True v then Raise NoValidTransformException
        else Raise (TransformException "rating" "ValueError"
                      self.(TiTransform.transformed_item))
      else Raise (KeyError "value")
  end.

(** An indicator item with entries of the four kinds, as the helpers
    leave them. *)
Definition full_item : pydict :=
  indicator_item ++
  [("attribute",
    VList [VDict [("type", VStr "Description"); ("value", VStr "seen in feed");
                  ("displayed", VBool true)];
           VDict [("type", VStr "Source"); ("value", VStr "feed-7");
                  ("source", VStr "vendor")]]);
   ("tag", VList [VDict [("name", VStr "botnet")]]);
   ("securityLabel",
    VList [VDict [("name", VStr "TLP:AMBER"); ("color", VStr "ffc000")]]);
   ("fileOccurrence", VList [VDict [("fileName", VStr "a.exe")]])].

(** Items that make [sample_process] raise. *)
Definition no_valid_item : pydict := [("raise", VBool true)].
Definition failing_item : pydict := [("raise", VStr "rating")].

(** An indicator document with [type] and [value2]. *)
Definition sample_indicator_doc : IndicatorTransformModel.doc :=
  {| IndicatorTransformModel.doc_type := Some (sample_field "type");
     IndicatorTransformModel.doc_value1 := None;
     IndicatorTransformModel.doc_value2 := Some (sample_field "value");
     IndicatorTransformModel.doc_value3 := None |}.

(** * Properties *)

(** ** Configuration models *)

Lemma required_transform_ok (v : TransformModel.t) :
  TransformModel._required_transform v = Ok v <->
  py_any (TransformModel.fields v) = true /\
  2 <= count_None (TransformModel.fields v).
Proof.
  unfold TransformModel._required_transform.
  destruct (py_any (TransformModel.fields v)); cbn [negb].
  - destruct (Nat.ltb_spec (count_None (TransformModel.fields v)) 2).
    + split; [discriminate | intros [_ H']; lia].
    + split; [intros _; split; [reflexivity | assumption] | reflexivity].
  - split; [discriminate | intros [H _]; discriminate].
Qed.

(** C1. The root validator of [TransformModel] lets a document with two
    mechanisms through: [two_maps] sets both [filter_map] and [static_map],
    and its construction returns a model instead of raising. *)
Theorem required_transform_accepts_two_mechanisms :
  forall lower : string -> string,
    TransformModel.mechanisms two_maps = 2 /\
    exists m, TransformModel.construct lower two_maps = Ok m.
Proof.
  intros lower. split; [reflexivity |].
  eexists. reflexivity.
Qed.

Lemma validated_raise {A : Type} (errors : list string) (a : A)
  (m : string) :
  In m errors ->
  exists msgs, validated errors a = Raise (ValidationError msgs) /\ In m msgs.
Proof.
  destruct errors as [|e es]; [intros [] |].
  intros H. exists (e :: es). split; [reflexivity | exact H].
Qed.

Lemma path_errors_valid (jc : string -> bool) (default : option string)
  (p : string) :
  jc "" = false -> jc p = true ->
  PathTransformModel.errors jc default (Some p) = [].
Proof.
  intros Hempty Hp. unfold PathTransformModel.errors. cbn. rewrite Hp.
  unfold PathTransformModel._default_or_path. cbn.
  destruct (String.eqb_spec p "") as [-> | _].
  - congruence.
  - cbn. rewrite orb_true_r. reflexivity.
Qed.

Lemma path_errors_invalid (jc : string -> bool) (default : option string)
  (p : string) :
  jc p = false ->
  In "A valid path must be provided."
     (PathTransformModel.errors jc default (Some p)).
Proof.
  intros Hp. unfold PathTransformModel.errors. cbn. rewrite Hp. cbn.
  destruct (PathTransformModel._default_or_path default None);
    cbn; left; reflexivity.
Qed.

(** C7. With a compiler that rejects the empty expression (as
    [jmespath.compile] does), a [PathTransformModel] or
    [MetadataTransformModel] document whose [path] compiles is constructed
    (for the latter, when its transform rules, if it has any, are valid),
    and one whose [path] does not compile raises a validation error from
    the constructor itself, whatever else the document holds. *)
Theorem path_checked_at_construction :
  forall (lower : string -> string) (jc : string -> bool) (p : string),
    jc "" = false ->
    (jc p = true ->
       (forall d, d.(PathTransformModel.path) = Some p ->
          PathTransformModel.construct jc d = Ok d) /\
       (forall d,
          d.(MetadataTransformModel.doc_path) = Some p ->
          (forall v, d.(MetadataTransformModel.doc_transform) = Some v ->
                     snd (MetadataTransformModel.transform_list lower
                            (MetadataTransformModel._always_array v)) = []) ->
          exists m,
            MetadataTransformModel.construct lower jc d = Ok m /\
            m.(MetadataTransformModel.path) = Some p)) /\
    (jc p = false ->
       (forall d, d.(PathTransformModel.path) = Some p ->
          exists msgs,
            PathTransformModel.construct jc d = Raise (ValidationError msgs) /\
            In "A valid path must be provided." msgs) /\
       (forall d, d.(MetadataTransformModel.doc_path) = Some p ->
          exists msgs,
            MetadataTransformModel.construct lower jc d
            = Raise (ValidationError msgs) /\
            In "A valid path must be provided." msgs)).
Proof.
  intros lower jc p Hempty. split; intros Hp; split.
  - intros d Hd. unfold PathTransformModel.construct. rewrite Hd.
    rewrite path_errors_valid by assumption. reflexivity.
  - intros d Hd Htr. unfold MetadataTransformModel.construct. rewrite Hd.
    rewrite path_errors_valid by assumption.
    destruct (MetadataTransformModel.doc_transform d) as [v |].
    + specialize (Htr v eq_refl).
      destruct (MetadataTransformModel.transform_list lower
                  (MetadataTransformModel._always_array v)) as [ms es].
      cbn in Htr. subst es. eexists. split; reflexivity.
    + eexists. split; reflexivity.
  - intros d Hd. unfold PathTransformModel.construct. rewrite Hd.
    apply validated_raise, path_errors_invalid, Hp.
  - intros d Hd. unfold MetadataTransformModel.construct. rewrite Hd.
    destruct (match MetadataTransformModel.doc_transform d with
              | Some v =>
                  let '(ms, es) :=
                    MetadataTransformModel.transform_list lower
                      (MetadataTransformModel._always_array v) in
                  (Some ms, es)
              | None => (None, [])
              end) as [tr e_tr].
    apply validated_raise, in_or_app. left.
    apply path_errors_invalid, Hp.
Qed.

Lemma path_checked_at_construction_witness :
  (PathTransformModel.construct sample_compile (sample_path "a.b")
   = Ok (sample_path "a.b")) /\
  (exists msgs,
     PathTransformModel.construct sample_compile (sample_path "[")
     = Raise (ValidationError msgs) /\
     In "A valid path must be provided." msgs).
Proof.
  split.
  - apply (path_checked_at_construction (fun s => s) sample_compile "a.b");
      reflexivity.
  - apply (path_checked_at_construction (fun s => s) sample_compile "[");
      reflexivity.
Defined.

Lemma one_indicator_value_ok (v1 v2 v3 : option MetadataTransformModel.t) :
  IndicatorTransformModel._one_indicator_value v1 v2 v3 = Ok tt <->
  v1 <> None \/ v2 <> None \/ v3 <> None.
Proof.
  unfold IndicatorTransformModel._one_indicator_value.
  destruct v1, v2, v3; cbn; split; intros H;
    try reflexivity; try discriminate;
    try (left; discriminate);
    try (right; left; discriminate);
    try (right; right; discriminate).
  destruct H as [H | [H | H]]; congruence.
Qed.

(** C8. An [IndicatorTransformModel] document with none of [value1],
    [value2], [value3] raises a validation error from the constructor;
    the root validator passes exactly when one of the three is configured;
    and when the nested field transforms are themselves valid and one of the
    three is configured, the construction returns the model: no record is
    looked at. *)
Theorem indicator_needs_one_value :
  forall (lower : string -> string) (jc : string -> bool),
    (forall ty, exists msgs,
        IndicatorTransformModel.construct lower jc
          {| IndicatorTransformModel.doc_type := ty;
             IndicatorTransformModel.doc_value1 := None;
             IndicatorTransformModel.doc_value2 := None;
             IndicatorTransformModel.doc_value3 := None |}
        = Raise (ValidationError msgs) /\
        In "An indicator transform must be defined (e.g., summary, value1, value2, value3)."
           msgs) /\
    (forall v1 v2 v3,
        IndicatorTransformModel._one_indicator_value v1 v2 v3 = Ok tt <->
        v1 <> None \/ v2 <> None \/ v3 <> None) /\
    (forall d ty v1 v2 v3,
        IndicatorTransformModel.optional lower jc
          d.(IndicatorTransformModel.doc_type) = (Some ty, []) ->
        IndicatorTransformModel.optional lower jc
          d.(IndicatorTransformModel.doc_value1) = (v1, []) ->
        IndicatorTransformModel.optional lower jc
          d.(IndicatorTransformModel.doc_value2) = (v2, []) ->
        IndicatorTransformModel.optional lower jc
          d.(IndicatorTransformModel.doc_value3) = (v3, []) ->
        v1 <> None \/ v2 <> None \/ v3 <> None ->
        IndicatorTransformModel.construct lower jc d
        = Ok {| IndicatorTransformModel.type := ty;
                IndicatorTransformModel.value1 := v1;
                IndicatorTransformModel.value2 := v2;
                IndicatorTransformModel.value3 := v3 |}).
Proof.
  intros lower jc. split; [| split].
  - intros ty. unfold IndicatorTransformModel.construct. cbn.
    destruct (match ty with
              | Some _ => IndicatorTransformModel.optional lower jc ty
              | None => (None, ["field required"])
              end) as [ty' e0].
    destruct ty' as [ty' |].
    + apply validated_raise, in_or_app. right. left. reflexivity.
    + eexists. split; [reflexivity |].
      apply in_or_app. right. left. reflexivity.
  - apply one_indicator_value_ok.
  - intros d ty v1 v2 v3 Hty H1 H2 H3 Hone.
    unfold IndicatorTransformModel.construct.
    destruct (IndicatorTransformModel.doc_type d) as [dt |] eqn:Edt;
      [| cbn in Hty; discriminate].
    rewrite Hty, H1, H2, H3.
    apply one_indicator_value_ok in Hone. rewrite Hone. reflexivity.
Qed.

Lemma indicator_needs_one_value_witness :
  exists m,
    IndicatorTransformModel.construct (fun s => s) sample_compile
      {| IndicatorTransformModel.doc_type := Some (sample_field "type");
         IndicatorTransformModel.doc_value1 := Some (sample_field "value");
         IndicatorTransformModel.doc_value2 := None;
         IndicatorTransformModel.doc_value3 := None |} = Ok m.
Proof.
  eexists.
  apply (proj2 (proj2 (indicator_needs_one_value (fun s => s) sample_compile)));
    try reflexivity.
  left. discriminate.
Defined.

(** ** Dictionaries *)

Lemma dict_get_set (k k' : string) (v : pyval) (d : pydict) :
  dict_get k (dict_set k' v d) = if k =? k' then Some v else dict_get k d.
Proof.
  induction d as [| [k0 v0] d IH]; cbn.
  - reflexivity.
  - destruct (String.eqb_spec k' k0) as [-> | Hne]; cbn.
    + destruct (String.eqb_spec k k0); reflexivity.
    + rewrite IH.
      destruct (String.eqb_spec k k0) as [-> | Hne'];
        [rewrite (proj2 (String.eqb_neq k0 k')) by congruence |]; reflexivity.
Qed.

Lemma dict_get_remove (k k' : string) (d : pydict) :
  dict_get k (dict_remove k' d) = if k =? k' then None else dict_get k d.
Proof.
  induction d as [| [k0 v0] d IH]; cbn.
  - destruct (k =? k'); reflexivity.
  - destruct (String.eqb_spec k' k0) as [-> | Hne]; cbn.
    + rewrite IH. destruct (String.eqb_spec k k0); reflexivity.
    + rewrite IH.
      destruct (String.eqb_spec k k0) as [-> | Hne'];
        [rewrite (proj2 (String.eqb_neq k0 k')) by congruence |]; reflexivity.
Qed.

Lemma setdefault_list_get (k : string) (d : pydict) (l : list pyval) :
  setdefault_list k d = Ok l ->
  dict_get k d = None /\ l = [] \/ dict_get k d = Some (VList l).
Proof.
  unfold setdefault_list.
  destruct (dict_get k d) as [[] |]; try discriminate;
    intros H; injection H as <-; auto.
Qed.

Lemma item_append_ok (k : string) (x : pyval) (self : TiTransform.t)
  (l : list pyval) :
  setdefault_list k self.(TiTransform.transformed_item) = Ok l ->
  TiTransform.item_append k x self
  = Ok (TiTransform.with_item self
          (dict_set k (VList (l ++ [x])) self.(TiTransform.transformed_item))).
Proof.
  intros H. unfold TiTransform.item_append. rewrite H. reflexivity.
Qed.

(** ** The helpers *)

(** C10. When [add_attribute] is called with non-null [type_] and [value]
    on an item whose ['attribute'] entry is absent or a list, it appends
    [attribute_data]; in that dictionary ['pinned'] holds the [displayed]
    argument when [pinned is True], and there is no ['pinned'] key
    otherwise. *)
Theorem add_attribute_pinned_is_displayed :
  forall (type_ value displayed pinned source : pyval) (self : TiTransform.t)
         (l : list pyval),
    is_none type_ = false ->
    is_none value = false ->
    setdefault_list "attribute" self.(TiTransform.transformed_item) = Ok l ->
    TiTransform.add_attribute type_ value displayed pinned source self
    = Ok (TiTransform.with_item self
            (dict_set "attribute"
               (VList (l ++ [VDict (TiTransform.attribute_data
                                      type_ value displayed pinned source)]))
               self.(TiTransform.transformed_item))) /\
    dict_get "pinned"
      (TiTransform.attribute_data type_ value displayed pinned source)
    = if is_True pinned then Some displayed else None.
Proof.
  intros type_ value displayed pinned source self l Ht Hv Hl. split.
  - unfold TiTransform.add_attribute. rewrite Ht, Hv. cbn [negb andb].
    apply item_append_ok, Hl.
  - unfold TiTransform.attribute_data.
    destruct (is_True displayed), (is_True pinned), (is_none source);
      reflexivity.
Qed.

Lemma add_attribute_pinned_is_displayed_witness :
  TiTransform.add_attribute (VStr "Description") (VStr "seen in feed")
    (VBool false) (VBool true) VNone
    (sample_self (Some IndicatorTransformModel) false indicator_item)
  = Ok (sample_self (Some IndicatorTransformModel) false
          (indicator_item ++
           [("attribute",
             VList [VDict [("type", VStr "Description");
                           ("value", VStr "seen in feed");
                           ("pinned", VBool false)]])])).
Proof.
  exact (proj1 (add_attribute_pinned_is_displayed
                  (VStr "Description") (VStr "seen in feed")
                  (VBool false) (VBool true) VNone
                  (sample_self (Some IndicatorTransformModel) false
                     indicator_item)
                  [] eq_refl eq_refl eq_refl)).
Defined.


Lemma getitem_append_ok (k : string) (x : pyval) (l : list pyval) (d : pydict) :
  dict_get k d = Some (VList l) ->
  getitem_append k x d = Ok (dict_set k (VList (l ++ [x])) d).
Proof.
  intros H. unfold getitem_append, getitem. rewrite H. reflexivity.
Qed.

Lemma getitem_extend_ok (k : string) (xs l : list pyval) (d : pydict) :
  dict_get k d = Some (VList l) ->
  getitem_extend k xs d = Ok (dict_set k (VList (l ++ xs)) d).
Proof.
  intros H. unfold getitem_extend, getitem. rewrite H. reflexivity.
Qed.

Lemma ltb_irrefl (s : string) : String.ltb s s = false.
Proof.
  unfold String.ltb. pose proof (String.compare_antisym s s) as H.
  destruct (String.compare s s); [reflexivity | discriminate | reflexivity].
Qed.

Lemma dict_get_insert_item (k k' : string) (v : pyval) (d : pydict) :
  dict_get k (insert_item (k', v) d)
  = if k =? k' then Some v else dict_get k d.
Proof.
  induction d as [| [k0 v0] d IH]; cbn.
  - reflexivity.
  - destruct (String.ltb k0 k') eqn:Hlt; cbn.
    + rewrite IH. destruct (String.eqb_spec k k0) as [-> | Hne].
      * destruct (String.eqb_spec k0 k') as [<- | _]; [| reflexivity].
        rewrite ltb_irrefl in Hlt. discriminate.
      * reflexivity.
    + reflexivity.
Qed.

(** Sorting the items changes no lookup. *)
Lemma dict_get_sorted (k : string) (d : pydict) :
  dict_get k (sorted_items d) = dict_get k d.
Proof.
  induction d as [| [k0 v0] d IH]; cbn.
  - reflexivity.
  - fold (sorted_items d). rewrite dict_get_insert_item, IH. reflexivity.
Qed.





(** *** Nulls *)

Lemma clean_not_none (v : pyval) :
  clean v = true -> is_none v = false -> has_none v = false.
Proof.
  unfold clean. intros H Hn. rewrite Hn in H. cbn in H.
  destruct (has_none v); [discriminate | reflexivity].
Qed.

Lemma truthy_not_none (v : pyval) : truthy v = true -> is_none v = false.
Proof. destruct v; cbn; congruence. Qed.

Lemma dict_has_none_cons (k : string) (v : pyval) (d : pydict) :
  dict_has_none ((k, v) :: d) = has_none v || dict_has_none d.
Proof. reflexivity. Qed.

Lemma dict_has_none_set (k : string) (v : pyval) (d : pydict) :
  has_none v = false -> dict_has_none d = false ->
  dict_has_none (dict_set k v d) = false.
Proof.
  intros Hv. induction d as [| [k0 v0] d IH]; intros Hd.
  - cbn. rewrite Hv. reflexivity.
  - rewrite dict_has_none_cons in Hd. apply orb_false_iff in Hd as [H0 Hd].
    cbn [dict_set]. destruct (k =? k0); rewrite dict_has_none_cons.
    + rewrite Hv, Hd. reflexivity.
    + rewrite H0, (IH Hd). reflexivity.
Qed.

Lemma dict_has_none_get (k : string) (v : pyval) (d : pydict) :
  dict_has_none d = false -> dict_get k d = Some v -> has_none v = false.
Proof.
  induction d as [| [k0 v0] d IH]; cbn [dict_get]; [discriminate |].
  rewrite dict_has_none_cons. intros Hd. apply orb_false_iff in Hd as [H0 Hd].
  destruct (k =? k0).
  - intros H; injection H as <-. exact H0.
  - apply IH, Hd.
Qed.

Lemma item_append_clean (k : string) (x : pyval) (self self' : TiTransform.t) :
  dict_has_none self.(TiTransform.transformed_item) = false ->
  has_none x = false ->
  TiTransform.item_append k x self = Ok self' ->
  dict_has_none self'.(TiTransform.transformed_item) = false.
Proof.
  intros Hd Hx. unfold TiTransform.item_append.
  destruct (setdefault_list k (TiTransform.transformed_item self)) as [l | e]
    eqn:Hl; cbn [bind]; [| discriminate].
  intros H; injection H as <-. cbn.
  apply dict_has_none_set; [| exact Hd].
  change (existsb has_none (l ++ [x]) = false).
  rewrite existsb_app. cbn. rewrite Hx, orb_false_r.
  apply setdefault_list_get in Hl as [[_ ->] | Hl]; [reflexivity |].
  exact (dict_has_none_get _ _ _ Hd Hl).
Qed.

Lemma item_set_clean (key value : pyval) (self self' : TiTransform.t) :
  dict_has_none self.(TiTransform.transformed_item) = false ->
  has_none value = false ->
  TiTransform.item_set key value self = Ok self' ->
  dict_has_none self'.(TiTransform.transformed_item) = false.
Proof.
  intros Hd Hv. unfold TiTransform.item_set.
  destruct key; try discriminate.
  intros H; injection H as <-. cbn. apply dict_has_none_set; assumption.
Qed.

Lemma attribute_data_clean (type_ value displayed pinned source : pyval) :
  has_none type_ = false -> has_none value = false ->
  has_none displayed = false -> clean source = true ->
  has_none
    (VDict (TiTransform.attribute_data type_ value displayed pinned source))
  = false.
Proof.
  intros Ht Hv Hd Hs. unfold TiTransform.attribute_data.
  destruct (is_none source) eqn:Hn; cbn [negb];
    [| pose proof (clean_not_none _ Hs Hn) as Hs'];
    destruct (is_True displayed), (is_True pinned); cbn;
    rewrite ?Ht, ?Hv, ?Hd, ?Hs'; reflexivity.
Qed.

Lemma file_occurrence_clean (file_name path date : pyval) :
  clean file_name = true -> clean path = true -> clean date = true ->
  has_none
    (VDict (filter (fun kv => truthy (snd kv))
              [("fileName", file_name); ("path", path); ("date", date)]))
  = false.
Proof.
  intros Hf Hp Hd. cbn [filter snd].
  destruct (truthy file_name) eqn:Tf, (truthy path) eqn:Tp,
    (truthy date) eqn:Td; cbn;
    rewrite ?(clean_not_none _ Hf (truthy_not_none _ Tf)),
      ?(clean_not_none _ Hp (truthy_not_none _ Tp)),
      ?(clean_not_none _ Hd (truthy_not_none _ Td)); reflexivity.
Qed.

Lemma security_label_clean (name color description : pyval) :
  has_none name = false -> clean color = true -> clean description = true ->
  has_none
    (VDict
       (let label_data := [("name", name)] in
        let label_data :=
          if negb (is_none color) then dict_set "color" color label_data
          else label_data in
        if negb (is_none description) then
          dict_set "description" description label_data
        else label_data)) = false.
Proof.
  intros Hn Hc Hd.
  destruct (is_none color) eqn:Nc, (is_none description) eqn:Nd; cbn;
    rewrite ?Hn, ?(clean_not_none _ Hc Nc), ?(clean_not_none _ Hd Nd);
    reflexivity.
Qed.

(** The helpers that test their key or value argument return the object
    unchanged when it is null; and these helpers and [add_file_occurrence],
    called with arguments that are null or hold no null (the [displayed]
    flag of an attribute not null), leave an item that held no null without
    one. *)
Lemma filtering_helpers_write_no_null :
  forall (py_int py_float : pyval -> result Z) (c : helper_call)
         (self : TiTransform.t),
    (null_guarded c = true -> null_call c = true ->
       call py_int py_float c self = Ok self) /\
    (null_filtering c = true -> clean_call c = true ->
       dict_has_none self.(TiTransform.transformed_item) = false ->
       forall self',
         call py_int py_float c self = Ok self' ->
         dict_has_none self'.(TiTransform.transformed_item) = false).
Proof.
  intros py_int py_float c self. split.
  - destruct c; cbn [null_guarded null_call call]; try discriminate;
      intros _ Hnull.
    + unfold TiTransform.add_attribute.
      destruct (is_none type_), (is_none value); try discriminate; reflexivity.
    + unfold TiTransform.add_tag. rewrite Hnull. reflexivity.
    + unfold TiTransform.add_security_label. rewrite Hnull. reflexivity.
    + unfold TiTransform.add_metadata.
      destruct key, value; try discriminate; cbn;
        rewrite ?andb_false_r; try reflexivity;
        match goal with |- (if ?b then _ else _) = _ => destruct b end;
        reflexivity.
    + unfold TiTransform.add_name. rewrite Hnull. reflexivity.
    + unfold TiTransform.add_summary. rewrite Hnull. reflexivity.
    + unfold TiTransform.add_confidence. rewrite Hnull. reflexivity.
    + unfold TiTransform.add_rating. rewrite Hnull. reflexivity.
  - destruct c; cbn [null_filtering clean_call call]; try discriminate;
      intros _ Hclean Hitem self'.
    + apply andb_true_iff in Hclean as [Hclean Hs].
      apply andb_true_iff in Hclean as [Hclean Hd].
      apply andb_true_iff in Hclean as [Ht Hv].
      apply negb_true_iff in Hd.
      unfold TiTransform.add_attribute.
      destruct (is_none type_) eqn:Nt, (is_none value) eqn:Nv; cbn [negb andb];
        try (intros H; injection H as <-; exact Hitem).
      apply item_append_clean; [exact Hitem |].
      apply attribute_data_clean; auto using clean_not_none.
    + unfold TiTransform.add_tag.
      destruct (is_none name) eqn:Nn; cbn [negb];
        [intros H; injection H as <-; exact Hitem |].
      apply item_append_clean; [exact Hitem |].
      cbn. rewrite (clean_not_none _ Hclean Nn). reflexivity.
    + apply andb_true_iff in Hclean as [Hclean Hd].
      apply andb_true_iff in Hclean as [Hn Hc].
      unfold TiTransform.add_security_label.
      destruct (is_none name) eqn:Nn; cbn [negb];
        [intros H; injection H as <-; exact Hitem |].
      apply item_append_clean; [exact Hitem |].
      apply security_label_clean; auto using clean_not_none.
    + apply andb_true_iff in Hclean as [Hclean Hd].
      apply andb_true_iff in Hclean as [Hf Hp].
      unfold TiTransform.add_file_occurrence.
      apply item_append_clean; [exact Hitem |].
      apply file_occurrence_clean; assumption.
    + apply andb_true_iff in Hclean as [Hk Hv].
      unfold TiTransform.add_metadata. cbn [forallb].
      destruct (truthy key) eqn:Tk, (truthy value) eqn:Tv; cbn [andb];
        try (intros H; injection H as <-; exact Hitem).
      apply item_set_clean; [exact Hitem |].
      apply clean_not_none, truthy_not_none; assumption.
    + unfold TiTransform.add_name.
      destruct (is_none name) eqn:Nn; cbn [negb];
        [intros H; injection H as <-; exact Hitem |].
      apply item_set_clean; [exact Hitem |].
      apply clean_not_none; assumption.
    + unfold TiTransform.add_summary.
      destruct (is_none value) eqn:Nn; cbn [negb];
        [intros H; injection H as <-; exact Hitem |].
      apply item_set_clean; [exact Hitem |].
      apply clean_not_none; assumption.
    + unfold TiTransform.add_confidence.
      destruct (is_none confidence) eqn:Nn; cbn [negb];
        [intros H; injection H as <-; exact Hitem |].
      destruct (py_int confidence); cbn [bind]; [| discriminate].
      apply item_set_clean; [exact Hitem | reflexivity].
    + unfold TiTransform.add_rating.
      destruct (is_none rating) eqn:Nn; cbn [negb];
        [intros H; injection H as <-; exact Hitem |].
      destruct (py_float rating); cbn [bind]; [| discriminate].
      apply item_set_clean; [exact Hitem | reflexivity].
Qed.

Lemma setdefault_list_spec (k : string) (d : pydict) :
  setdefault_list k d
  = if list_or_absent k d then Ok (batch_entries k d)
    else Raise AttributeError.
Proof.
  unfold setdefault_list, list_or_absent, batch_entries.
  destruct (dict_get k d) as [[] |]; reflexivity.
Qed.

Lemma item_append_spec (k : string) (x : pyval) (self : TiTransform.t) :
  TiTransform.item_append k x self
  = if list_or_absent k self.(TiTransform.transformed_item) then
      Ok (TiTransform.with_item self
            (dict_set k
               (VList (batch_entries k self.(TiTransform.transformed_item)
                       ++ [x]))
               self.(TiTransform.transformed_item)))
    else Raise AttributeError.
Proof.
  unfold TiTransform.item_append. rewrite setdefault_list_spec.
  destruct (list_or_absent k _); reflexivity.
Qed.

Lemma batch_entries_set (k : string) (l : list pyval) (d : pydict) :
  batch_entries k (dict_set k (VList l) d) = l.
Proof.
  unfold batch_entries. rewrite dict_get_set, String.eqb_refl. reflexivity.
Qed.

Lemma get_some (k : string) (v : pyval) (d : pydict) :
  dict_get k d = Some v -> get d k = v.
Proof. unfold get, get_default. intros ->. reflexivity. Qed.

(** C3, as the code has it.  (1) [add_attribute], [add_tag],
    [add_security_label], [add_metadata], [add_name], [add_summary],
    [add_confidence] and [add_rating] return the object unchanged when their
    key or value argument is null.  (2) The other three helpers have no such
    test.  Each returns exactly when the entry it appends under is absent
    or a list and the item has the keys it subscripts; when it returns, it
    has appended one entry ([appended_entry]) at the end of that list,
    whatever its arguments: [add_file_occurrence] an entry of its truthy
    arguments, [add_associated_group] and [add_associated_indicator] an
    entry that holds their arguments as given, null included; only
    [add_associated_group] while no model is selected appends nothing and
    returns the object unchanged.  (3) The entry [add_file_occurrence]
    appends when all its arguments are null is the empty dict.  (4) A call
    of any helper whose arguments hold no null (for the helpers of (1) and
    [add_file_occurrence]: are null or hold none, the [displayed] flag of
    an attribute not null) leaves an item that held no null without
    one. *)
Ltac unguarded_finish :=
  split;
  [ split;
    [ intros H; try discriminate H; eexists; reflexivity
    | intros [s H]; try discriminate H; reflexivity ]
  | intros s H; try discriminate H; injection H as <-;
    try reflexivity;
    cbn [TiTransform.with_log TiTransform.with_item
         TiTransform.transformed_item];
    apply batch_entries_set ].

Theorem helpers_and_null_arguments :
  forall (py_int py_float : pyval -> result Z) (c : helper_call)
         (self : TiTransform.t),
    (null_guarded c = true -> null_call c = true ->
     call py_int py_float c self = Ok self) /\
    (null_guarded c = false ->
     (can_append c self = true <->
      exists self', call py_int py_float c self = Ok self') /\
     (forall self',
         call py_int py_float c self = Ok self' ->
         match appended_entry c self with
         | Some (k, x) =>
             batch_entries k self'.(TiTransform.transformed_item)
             = batch_entries k self.(TiTransform.transformed_item) ++ [x]
         | None => self' = self
         end)) /\
    (forall file_name path date,
        null_call (AddFileOccurrence file_name path date) = true ->
        appended_entry (AddFileOccurrence file_name path date) self
        = Some ("fileOccurrence", VDict [])) /\
    (null_free_call c = true ->
     dict_has_none self.(TiTransform.transformed_item) = false ->
     forall self',
       call py_int py_float c self = Ok self' ->
       dict_has_none self'.(TiTransform.transformed_item) = false).
Proof.
  intros py_int py_float c self. split; [| split; [| split]].
  - apply filtering_helpers_write_no_null.
  - destruct c; cbn [null_guarded]; try discriminate; intros _;
      unfold can_append, appended_entry, needed_keys;
      cbn [call].
    + unfold TiTransform.add_file_occurrence. rewrite item_append_spec.
      destruct (TiTransform.seperate_batch_associations self);
        cbn [forallb]; rewrite andb_true_r;
        destruct (list_or_absent "fileOccurrence" _); unguarded_finish.
    + unfold TiTransform.add_associated_group.
      destruct (TiTransform.seperate_batch_associations self),
        (TiTransform.transform self) as [[] |]; cbn [negb forallb];
        rewrite ?andb_true_r; rewrite ?setdefault_list_spec;
        unfold getitem, absent, get, get_default;
        repeat match goal with
          | |- context [list_or_absent ?k ?d] =>
              let E := fresh "E" in destruct (list_or_absent k d) eqn:E
          | |- context [dict_get ?k ?d] =>
              let E := fresh "E" in destruct (dict_get k d) eqn:E
          end;
        cbn [bind negb andb]; rewrite ?item_append_spec;
        repeat match goal with
          | E : list_or_absent _ _ = _ |- _ => rewrite E
          end;
        cbn [bind]; unguarded_finish.
    + unfold TiTransform.add_associated_indicator.
      destruct (TiTransform.seperate_batch_associations self);
        cbn [negb forallb];
        rewrite ?andb_true_r; rewrite ?setdefault_list_spec;
        unfold getitem, absent, get, get_default;
        repeat match goal with
          | |- context [list_or_absent ?k ?d] =>
              let E := fresh "E" in destruct (list_or_absent k d) eqn:E
          | |- context [dict_get ?k ?d] =>
              let E := fresh "E" in destruct (dict_get k d) eqn:E
          end;
        cbn [bind negb andb]; rewrite ?item_append_spec;
        repeat match goal with
          | E : list_or_absent _ _ = _ |- _ => rewrite E
          end;
        cbn [bind]; unguarded_finish.
  - intros file_name path date. cbn [null_call]. intros H.
    apply andb_true_iff in H as [H Hd]. apply andb_true_iff in H as [Hf Hp].
    destruct file_name, path, date; try discriminate. reflexivity.
  - intros Hfree Hitem self'.
    destruct c;
      try (apply (proj2 (filtering_helpers_write_no_null py_int py_float _
                           self)); [reflexivity | exact Hfree | exact Hitem]);
      cbn [null_free_call call] in *.
    + apply negb_true_iff in Hfree.
      unfold TiTransform.add_associated_group.
      destruct (TiTransform.seperate_batch_associations self),
        (TiTransform.transform self) as [[] |]; cbn [negb];
        try (intros H; injection H as <-; exact Hitem);
        try (apply item_append_clean; [exact Hitem |]; cbn;
             rewrite ?Hfree; reflexivity).
      * destruct (setdefault_list _ _); cbn [bind]; [| discriminate].
        unfold getitem.
        destruct (dict_get "xid" _) as [xid |] eqn:Hx; cbn [bind];
          [| discriminate].
        destruct (TiTransform.item_append _ _ self) as [s |] eqn:E;
          cbn [bind]; [| discriminate].
        intros H; injection H as <-.
        apply (item_append_clean _ _ _ _ Hitem) in E; [exact E |].
        cbn. rewrite Hfree, (dict_has_none_get _ _ _ Hitem Hx). reflexivity.
      * destruct (setdefault_list _ _); cbn [bind]; [| discriminate].
        unfold getitem.
        destruct (dict_get "summary" _) as [summary |] eqn:Hs; cbn [bind];
          [| discriminate].
        destruct (dict_get "type" _) as [type_ |] eqn:Ht; cbn [bind];
          [| discriminate].
        destruct (TiTransform.item_append _ _ self) as [s |] eqn:E;
          cbn [bind]; [| discriminate].
        intros H; injection H as <-.
        apply (item_append_clean _ _ _ _ Hitem) in E; [exact E |].
        cbn. rewrite Hfree, (dict_has_none_get _ _ _ Hitem Hs),
          (dict_has_none_get _ _ _ Hitem Ht). reflexivity.
    + apply andb_true_iff in Hfree as [Hs Ht].
      apply negb_true_iff in Hs, Ht.
      unfold TiTransform.add_associated_indicator.
      destruct (TiTransform.seperate_batch_associations self); cbn [negb].
      * destruct (setdefault_list _ _); cbn [bind]; [| discriminate].
        unfold getitem.
        destruct (dict_get "xid" _) as [xid |] eqn:Hx; cbn [bind];
          [| discriminate].
        apply item_append_clean; [exact Hitem |].
        cbn. rewrite Hs, Ht, (dict_has_none_get _ _ _ Hitem Hx). reflexivity.
      * apply item_append_clean; [exact Hitem |].
        cbn. rewrite Hs, Ht. reflexivity.
Qed.

Lemma helpers_and_null_arguments_witness :
  call sample_int sample_float (AddTag VNone)
    (sample_self (Some IndicatorTransformModel) false indicator_item)
  = Ok (sample_self (Some IndicatorTransformModel) false indicator_item) /\
  (exists self',
      call sample_int sample_float (AddFileOccurrence VNone VNone VNone)
        group_self = Ok self') /\
  (forall self',
      call sample_int sample_float (AddAssociatedGroup VNone) group_self
      = Ok self' ->
      batch_entries "associatedGroupXid" self'.(TiTransform.transformed_item)
      = [VNone]) /\
  (forall self',
      call sample_int sample_float (AddAssociatedGroup (VStr "g-1"))
        (sample_self (Some IndicatorTransformModel) true indicator_item)
      = Ok self' ->
      dict_has_none self'.(TiTransform.transformed_item) = false).
Proof.
  split; [| split; [| split]].
  - apply (proj1 (helpers_and_null_arguments sample_int sample_float
                    (AddTag VNone)
                    (sample_self (Some IndicatorTransformModel) false
                       indicator_item))); reflexivity.
  - apply (proj1 (proj1 (proj2 (helpers_and_null_arguments sample_int
                                  sample_float
                                  (AddFileOccurrence VNone VNone VNone)
                                  group_self)) eq_refl)).
    reflexivity.
  - intros self' H.
    exact (proj2 (proj1 (proj2 (helpers_and_null_arguments sample_int
                                  sample_float (AddAssociatedGroup VNone)
                                  group_self)) eq_refl) self' H).
  - apply (proj2 (proj2 (proj2 (helpers_and_null_arguments sample_int
                                  sample_float
                                  (AddAssociatedGroup (VStr "g-1"))
                                  (sample_self (Some IndicatorTransformModel)
                                     true indicator_item)))));
      reflexivity.
Defined.


(** C3, as stated, fails: [add_associated_group] and
    [add_associated_indicator] have no test of their argument and store a
    null, and [add_file_occurrence] called with nothing but nulls still
    appends an (empty) entry. *)
Lemma unguarded_helpers_store_null :
  (null_call (AddAssociatedGroup VNone) = true /\
   call sample_int sample_float (AddAssociatedGroup VNone) group_self
   = Ok (TiTransform.with_item group_self
           (group_item ++ [("associatedGroupXid", VList [VNone])])) /\
   dict_has_none (group_item ++ [("associatedGroupXid", VList [VNone])])
   = true) /\
  (null_call (AddAssociatedIndicator VNone VNone) = true /\
   call sample_int sample_float (AddAssociatedIndicator VNone VNone)
     group_self
   = Ok (TiTransform.with_item group_self
           (group_item ++
            [("associatedIndicators",
              VList [VDict [("summary", VNone);
                            ("indicatorType", VNone)]])]))) /\
  (null_call (AddFileOccurrence VNone VNone VNone) = true /\
   call sample_int sample_float (AddFileOccurrence VNone VNone VNone)
     group_self
   = Ok (TiTransform.with_item group_self
           (group_item ++ [("fileOccurrence", VList [VDict []])])) /\
   call sample_int sample_float (AddFileOccurrence VNone VNone VNone)
     group_self
   <> Ok group_self).
Proof.
  repeat split. discriminate.
Qed.

(** ** The v3 restructuring *)

Lemma dict_del_ok (k : string) (v : pyval) (d : pydict) :
  dict_get k d = Some v -> dict_del k d = Ok (dict_remove k d).
Proof. intros H. unfold dict_del. rewrite H. reflexivity. Qed.

Lemma get_truthy (k : string) (d : pydict) :
  truthy (get d k) = true -> exists v, dict_get k d = Some v /\ truthy v = true.
Proof.
  unfold get, get_default. destruct (dict_get k d) as [v |]; cbn.
  - intros H. exists v. auto.
  - discriminate.
Qed.

(** The dict comprehension [{'xid': g for g in gs}] keeps the last [g]. *)
Lemma xid_comprehension (gs : list pyval) (x : pyval) :
  fold_left (fun acc g => dict_set "xid" g acc) (gs ++ [x]) []
  = [("xid", x)].
Proof.
  rewrite fold_left_app. cbn.
  assert (H : forall acc,
             acc = [] \/ (exists y, acc = [("xid", y)]) ->
             fold_left (fun acc g => dict_set "xid" g acc) gs acc = [] \/
             exists y,
               fold_left (fun acc g => dict_set "xid" g acc) gs acc
               = [("xid", y)]).
  { induction gs as [| g gs IH]; intros acc Hacc; cbn.
    - exact Hacc.
    - apply IH. right. exists g.
      destruct Hacc as [-> | [y ->]]; reflexivity. }
  destruct (H [] (or_introl eq_refl)) as [-> | [y ->]]; reflexivity.
Qed.

Lemma v3_associated_groups_list (item : pydict) (xs : list pyval) (x : pyval) :
  dict_get "associatedGroupXid" item = Some (VList (xs ++ [x])) ->
  TiTransform.v3_associated_groups item
  = Ok (dict_remove "associatedGroupXid"
          (dict_set "associatedGroups"
             (VDict [("data", VList [VDict [("xid", x)]])]) item)).
Proof.
  intros H. unfold TiTransform.v3_associated_groups, get, get_default, getitem.
  rewrite H.
  replace (truthy (VList (xs ++ [x]))) with true by (destruct xs; reflexivity).
  cbn [bind py_iter]. rewrite xid_comprehension.
  apply dict_del_ok with (v := VList (xs ++ [x])).
  rewrite dict_get_set. exact H.
Qed.

Lemma dict_set_comm (k k' : string) (v v' : pyval) (d : pydict) :
  k <> k' -> dict_get k d <> None ->
  dict_set k v (dict_set k' v' d) = dict_set k' v' (dict_set k v d).
Proof.
  intros Hne. induction d as [| [k0 v0] d IH]; cbn; [congruence |].
  destruct (String.eqb_spec k k0) as [-> | H0]; intros Hget.
  - rewrite (proj2 (String.eqb_neq k' k0)) by congruence. cbn.
    rewrite String.eqb_refl, (proj2 (String.eqb_neq k' k0)) by congruence.
    reflexivity.
  - destruct (String.eqb_spec k' k0) as [-> | H0']; cbn.
    + rewrite (proj2 (String.eqb_neq k k0)), String.eqb_refl by congruence.
      reflexivity.
    + rewrite (proj2 (String.eqb_neq k k0)), (proj2 (String.eqb_neq k' k0))
        by congruence.
      rewrite (IH Hget). reflexivity.
Qed.

Lemma dict_remove_set (k : string) (v : pyval) (d : pydict) :
  dict_remove k (dict_set k v d) = dict_remove k d.
Proof.
  induction d as [| [k0 v0] d IH]; cbn.
  - rewrite String.eqb_refl. reflexivity.
  - destruct (k =? k0) eqn:E; cbn; rewrite E; [reflexivity |].
    rewrite IH. reflexivity.
Qed.

(** A block of the restructuring reads and writes its two keys only. *)
Lemma v3_block_get (k plural : string) (f : pyval -> result pyval)
  (d d' : pydict) (q : string) :
  q <> k -> q <> plural ->
  TiTransform.v3_block k plural f d = Ok d' ->
  dict_get q d' = dict_get q d.
Proof.
  intros Hk Hp. unfold TiTransform.v3_block.
  destruct (truthy (get d k)) eqn:T.
  - apply get_truthy in T as (v & Hv & _).
    unfold getitem. rewrite Hv. cbn [bind].
    destruct (py_iter v) as [it | e]; cbn [bind]; [| discriminate].
    destruct (mapM f it) as [data | e]; cbn [bind]; [| discriminate].
    unfold dict_del. rewrite dict_get_set.
    destruct (k =? plural); rewrite ?Hv; intros H; injection H as <-;
      rewrite dict_get_remove, dict_get_set;
      rewrite (proj2 (String.eqb_neq q k) Hk),
        (proj2 (String.eqb_neq q plural) Hp); reflexivity.
  - intros H; injection H as <-. reflexivity.
Qed.

(** The keys the four blocks of [v3_restructure] after the first leave
    alone. *)
Definition outside_blocks (q : string) : Prop :=
  ~ In q ["attribute"; "attributes"; "tag"; "tags"; "securityLabel";
          "securityLabels"; "fileOccurrence"; "fileOccurrences"].

Lemma v3_restructure_get (item v3_data out : pydict) (q : string) :
  outside_blocks q ->
  TiTransform.v3_associated_groups item = Ok v3_data ->
  TiTransform.v3_restructure item = Ok out ->
  dict_get q out = dict_get q v3_data.
Proof.
  intros Hq H0. unfold TiTransform.v3_restructure. rewrite H0. cbn [bind].
  unfold outside_blocks in Hq. cbn [In] in Hq.
  destruct (TiTransform.v3_block "attribute" _ _ v3_data) as [d1 | e] eqn:H1;
    cbn [bind]; [| discriminate].
  destruct (TiTransform.v3_block "tag" _ _ d1) as [d2 | e] eqn:H2;
    cbn [bind]; [| discriminate].
  destruct (TiTransform.v3_block "securityLabel" _ _ d2) as [d3 | e] eqn:H3;
    cbn [bind]; [| discriminate].
  intros H4.
  apply (v3_block_get _ _ _ _ _ q) in H1, H2, H3, H4;
    try (intros ->; apply Hq; tauto).
  congruence.
Qed.

(** C9. When the item's ['associatedGroupXid'] entry is the non-empty list
    [xs ++ [x]], the v3 serialization is the one of the item that holds
    [[x]] alone, so nothing of [xs] reaches it; the first block succeeds,
    and in every output ['associatedGroups'] is [{data: [{xid: x}]}] and
    the key ['associatedGroupXid'] is gone. *)
Theorem v3_api_keeps_last_group_xid :
  forall (_process : TiTransform.t -> result TiTransform.t)
         (self self' : TiTransform.t) (xs : list pyval) (x : pyval),
    _process self = Ok self' ->
    dict_get "associatedGroupXid" self'.(TiTransform.transformed_item)
    = Some (VList (xs ++ [x])) ->
    TiTransform.v3_restructure self'.(TiTransform.transformed_item)
    = TiTransform.v3_restructure
        (dict_set "associatedGroupXid" (VList [x])
           self'.(TiTransform.transformed_item)) /\
    (exists v3_data,
        TiTransform.v3_associated_groups self'.(TiTransform.transformed_item)
        = Ok v3_data) /\
    (forall out s,
        TiTransform.v3_api _process self = Ok (out, s) ->
        dict_get "associatedGroups" out
        = Some (VDict [("data", VList [VDict [("xid", x)]])]) /\
        dict_get "associatedGroupXid" out = None).
Proof.
  intros _process self self' xs x Hp Hx.
  pose proof (v3_associated_groups_list _ _ _ Hx) as H0.
  split; [| split].
  - unfold TiTransform.v3_restructure. rewrite H0.
    rewrite (v3_associated_groups_list _ [] x)
      by (rewrite dict_get_set; reflexivity).
    rewrite <- (dict_set_comm "associatedGroupXid" "associatedGroups")
      by (try discriminate; rewrite Hx; discriminate).
    rewrite dict_remove_set. reflexivity.
  - eexists. exact H0.
  - intros out s. unfold TiTransform.v3_api. rewrite Hp. cbn [bind].
    destruct (TiTransform.v3_restructure (TiTransform.transformed_item self'))
      as [o | e] eqn:Hr; cbn [bind]; [| discriminate].
    intros H; injection H as -> _.
    split.
    + rewrite (v3_restructure_get _ _ _ "associatedGroups"
                 ltac:(cbv; intuition discriminate) H0 Hr).
      rewrite dict_get_remove, dict_get_set. reflexivity.
    + rewrite (v3_restructure_get _ _ _ "associatedGroupXid"
                 ltac:(cbv; intuition discriminate) H0 Hr).
      rewrite dict_get_remove. reflexivity.
Qed.

Lemma v3_api_keeps_last_group_xid_witness :
  exists out s,
    TiTransform.v3_api sample_process
      (sample_self (Some GroupTransformModel) false
         (group_item ++
          [("associatedGroupXid", VList [VStr "g-1"; VStr "g-2"])]))
    = Ok (out, s) /\
    dict_get "associatedGroups" out
    = Some (VDict [("data", VList [VDict [("xid", VStr "g-2")]])]).
Proof.
  eexists. eexists. split; [reflexivity |].
  apply (proj2 (proj2 (v3_api_keeps_last_group_xid sample_process
                         (sample_self (Some GroupTransformModel) false
                            (group_item ++
                             [("associatedGroupXid",
                               VList [VStr "g-1"; VStr "g-2"])]))
                         _ [VStr "g-1"] (VStr "g-2") eq_refl eq_refl))
           _ _ eq_refl).
Defined.

(** *** Both serializations of one item *)


(** A conversion [f] of an entry succeeds on the entries that have the
    [required] keys and keeps what they hold under [keys]. *)
Definition converts (f : pyval -> result pyval) (required keys : list string)
  : Prop :=
  forall e, has_keys required e = true ->
            exists e', f e = Ok e' /\ content keys e' = content keys e.



Ltac open_entry e He :=
  destruct e; try discriminate He; cbn in He;
  repeat match type of He with
    | context [dict_get ?k ?d] =>
        let E := fresh "E" in
        destruct (dict_get k d) eqn:E; try discriminate He
    end.

Lemma v3_attribute_converts :
  converts TiTransform.v3_attribute ["type"; "value"] ["type"; "value"].
Proof.
  intros e He. open_entry e He. eexists. split.
  - unfold TiTransform.v3_attribute, subscript, getitem, method_get.
    rewrite E, E0. reflexivity.
  - cbn. unfold get, get_default. rewrite E, E0. reflexivity.
Qed.







Lemma batch_entries_ext (k : string) (d d' : pydict) :
  dict_get k d' = dict_get k d -> batch_entries k d' = batch_entries k d.
Proof. unfold batch_entries. intros ->. reflexivity. Qed.





(** ** The collection loops *)

(** What one pass of the [v3_api] loop body adds under the type name: the
    keys left in [data], one list element per key. *)
Lemma v3_step_adds_keys (data v3_data : pydict) (k : string)
  (l0 : list pyval) :
  dict_get "type" data = Some (VStr k) ->
  setdefault_list k v3_data = Ok l0 ->
  TiTransforms.v3_step data v3_data
  = Ok (dict_set k
          (VList (l0 ++ map (fun kv => VStr (fst kv))
                          (dict_remove "type" data)))
          v3_data).
Proof.
  intros Hty Hl. unfold TiTransforms.v3_step, dict_pop. rewrite Hty.
  cbn [bind]. unfold setdefault_extend. rewrite Hl. reflexivity.
Qed.

(** C2. On a collection of one indicator record, [{type: Address, summary:
    1.2.3.4, xid: x-2}], the v3 extraction returns
    [{Address: [summary, xid]}]: [extend] is given the entity dict and adds
    its remaining keys, not the dict, to the list of the type. *)
Theorem v3_api_extends_with_keys :
  TiTransforms.v3_api sample_process false
    [sample_self (Some IndicatorTransformModel) false indicator_item]
  = ([Trace "feature=ti-transform-v3, ti-count=" 1],
     Ok [("Address", VList [VStr "summary"; VStr "xid"])]) /\
  TiTransform.v3_api sample_process
    (sample_self (Some IndicatorTransformModel) false indicator_item)
  = Ok (indicator_item,
        sample_self (Some IndicatorTransformModel) false indicator_item).
Proof. split; reflexivity. Qed.

Lemma handler_skips (raise_exceptions : bool) (e : exn) :
  e = NoValidTransformException \/ raise_exceptions = false ->
  snd (TiTransforms.handler raise_exceptions e) = false.
Proof.
  intros [-> | H]; [reflexivity |].
  unfold TiTransforms.handler. destruct e; cbn; auto.
Qed.

Lemma handler_reraises (raise_exceptions : bool) (e : exn) :
  e <> NoValidTransformException -> raise_exceptions = true ->
  snd (TiTransforms.handler raise_exceptions e) = true.
Proof.
  intros Hne H. unfold TiTransforms.handler.
  destruct e; cbn; auto; congruence.
Qed.

(** The outcome of a loop depends neither on the index it starts from nor
    on what was logged before. *)
Lemma batch_loop_outcome (_process : TiTransform.t -> result TiTransform.t)
  (raise_exceptions seperate : bool) (ts : list TiTransform.t) :
  forall index index' log log' batch,
    snd (TiTransforms.batch_loop _process raise_exceptions seperate
           index ts log batch)
    = snd (TiTransforms.batch_loop _process raise_exceptions seperate
             index' ts log' batch).
Proof.
  induction ts as [| t ts IH]; intros index index' log log' batch;
    cbn; [reflexivity |].
  destruct (TiTransform.batch _process t) as [[data t'] | e].
  - destruct (TiTransforms.batch_step _ data t' batch);
      [apply IH | reflexivity].
  - destruct (TiTransforms.handler raise_exceptions e) as [r []];
      [reflexivity | apply IH].
Qed.

Lemma v3_loop_outcome (_process : TiTransform.t -> result TiTransform.t)
  (raise_exceptions : bool) (ts : list TiTransform.t) :
  forall index index' log log' v3_data,
    snd (TiTransforms.v3_loop _process raise_exceptions index ts log v3_data)
    = snd (TiTransforms.v3_loop _process raise_exceptions
             index' ts log' v3_data).
Proof.
  induction ts as [| t ts IH]; intros index index' log log' v3_data;
    cbn; [reflexivity |].
  destruct (TiTransform.v3_api _process t) as [[data t'] | e].
  - destruct (TiTransforms.v3_step data v3_data); [apply IH | reflexivity].
  - destruct (TiTransforms.handler raise_exceptions e) as [r []];
      [reflexivity | apply IH].
Qed.

Lemma progress_keeps (feature : string) (index : nat) (log : list log_record)
  (r : log_record) :
  In r log -> In r (TiTransforms.progress feature index log).
Proof.
  intros H. unfold TiTransforms.progress.
  destruct (negb (index =? 0)%nat && (index mod 1000 =? 0)%nat);
    [apply in_or_app; left |]; exact H.
Qed.

Lemma batch_loop_keeps_log (_process : TiTransform.t -> result TiTransform.t)
  (raise_exceptions seperate : bool) (ts : list TiTransform.t)
  (r : log_record) :
  forall index log batch,
    In r log ->
    In r (fst (TiTransforms.batch_loop _process raise_exceptions seperate
                 index ts log batch)).
Proof.
  induction ts as [| t ts IH]; intros index log batch Hr; cbn;
    [exact Hr |].
  apply (progress_keeps "feature=ti-transform-batch, items=" index) in Hr.
  destruct (TiTransform.batch _process t) as [[data t'] | e].
  - destruct (TiTransforms.batch_step _ data t' batch); [apply IH |]; exact Hr.
  - destruct (TiTransforms.handler raise_exceptions e) as [r' []]; cbn;
      [| apply IH]; apply in_or_app; left; exact Hr.
Qed.

Lemma v3_loop_keeps_log (_process : TiTransform.t -> result TiTransform.t)
  (raise_exceptions : bool) (ts : list TiTransform.t) (r : log_record) :
  forall index log v3_data,
    In r log ->
    In r (fst (TiTransforms.v3_loop _process raise_exceptions
                 index ts log v3_data)).
Proof.
  induction ts as [| t ts IH]; intros index log v3_data Hr; cbn;
    [exact Hr |].
  apply (progress_keeps "feature=ti-transform-v3, items=" index) in Hr.
  destruct (TiTransform.v3_api _process t) as [[data t'] | e].
  - destruct (TiTransforms.v3_step data v3_data); [apply IH |]; exact Hr.
  - destruct (TiTransforms.handler raise_exceptions e) as [r' []]; cbn;
      [| apply IH]; apply in_or_app; left; exact Hr.
Qed.

(** What the [batch] loop does with a record whose [t.batch] raises [e],
    after the records [pre] and before the records [post]. *)
Lemma batch_loop_failed_record
  (_process : TiTransform.t -> result TiTransform.t)
  (raise_exceptions seperate : bool) (pre post : list TiTransform.t)
  (t : TiTransform.t) (e : exn) :
  TiTransform.batch _process t = Raise e ->
  let loop := TiTransforms.batch_loop _process raise_exceptions seperate in
  forall index log batch,
    (snd (TiTransforms.handler raise_exceptions e) = false ->
     snd (loop index (pre ++ t :: post) log batch)
     = snd (loop index (pre ++ post) log batch)) /\
    (forall b,
        snd (loop index pre log batch) = Ok b ->
        In (fst (TiTransforms.handler raise_exceptions e))
          (fst (loop index (pre ++ t :: post) log batch)) /\
        (snd (TiTransforms.handler raise_exceptions e) = true ->
         snd (loop index (pre ++ t :: post) log batch) = Raise e)).
Proof.
  intros Ht loop. subst loop.
  induction pre as [| t0 pre IH]; intros index log batch.
  - cbn [app TiTransforms.batch_loop]. rewrite Ht.
    destruct (TiTransforms.handler raise_exceptions e) as [r rr]. cbn [fst snd].
    split.
    + intros ->. apply batch_loop_outcome.
    + intros b _. split.
      * destruct rr; cbn [fst];
          [| apply batch_loop_keeps_log]; apply in_or_app; right; left;
          reflexivity.
      * intros ->. reflexivity.
  - cbn [app TiTransforms.batch_loop].
    destruct (TiTransform.batch _process t0) as [[data t'] | e0].
    + destruct (TiTransforms.batch_step seperate data t' batch) as [b' | e'].
      * apply IH.
      * split; [reflexivity | cbn; discriminate].
    + destruct (TiTransforms.handler raise_exceptions e0) as [r0 []].
      * split; [reflexivity | cbn; discriminate].
      * apply IH.
Qed.

Lemma v3_loop_failed_record
  (_process : TiTransform.t -> result TiTransform.t)
  (raise_exceptions : bool) (pre post : list TiTransform.t)
  (t : TiTransform.t) (e : exn) :
  TiTransform.v3_api _process t = Raise e ->
  let loop := TiTransforms.v3_loop _process raise_exceptions in
  forall index log v3_data,
    (snd (TiTransforms.handler raise_exceptions e) = false ->
     snd (loop index (pre ++ t :: post) log v3_data)
     = snd (loop index (pre ++ post) log v3_data)) /\
    (forall b,
        snd (loop index pre log v3_data) = Ok b ->
        In (fst (TiTransforms.handler raise_exceptions e))
          (fst (loop index (pre ++ t :: post) log v3_data)) /\
        (snd (TiTransforms.handler raise_exceptions e) = true ->
         snd (loop index (pre ++ t :: post) log v3_data) = Raise e)).
Proof.
  intros Ht loop. subst loop.
  induction pre as [| t0 pre IH]; intros index log v3_data.
  - cbn [app TiTransforms.v3_loop]. rewrite Ht.
    destruct (TiTransforms.handler raise_exceptions e) as [r rr]. cbn [fst snd].
    split.
    + intros ->. apply v3_loop_outcome.
    + intros b _. split.
      * destruct rr; cbn [fst];
          [| apply v3_loop_keeps_log]; apply in_or_app; right; left;
          reflexivity.
      * intros ->. reflexivity.
  - cbn [app TiTransforms.v3_loop].
    destruct (TiTransform.v3_api _process t0) as [[data t'] | e0].
    + destruct (TiTransforms.v3_step data v3_data) as [b' | e'].
      * apply IH.
      * split; [reflexivity | cbn; discriminate].
    + destruct (TiTransforms.handler raise_exceptions e0) as [r0 []].
      * split; [reflexivity | cbn; discriminate].
      * apply IH.
Qed.

(** C4. A record whose [t.batch] (for [batch]) or [t.v3_api] (for
    [v3_api]) raises [e] is skipped when [e] is
    [NoValidTransformException] or [raise_exceptions] is false: the run
    returns what it returns on the collection without that record.  When
    the records before it went through, what the [except] clause logs for
    [e] is in the log, and when [e] is another exception and
    [raise_exceptions] is true the run raises [e]. *)
Theorem failed_record_skipped_or_reraised :
  forall (_process : TiTransform.t -> result TiTransform.t)
         (raise_exceptions seperate : bool) (pre post : list TiTransform.t)
         (t : TiTransform.t) (e : exn),
    let handled (run : list TiTransform.t -> list log_record * result pydict)
      :=
      (e = NoValidTransformException \/ raise_exceptions = false ->
       snd (run (pre ++ t :: post)) = snd (run (pre ++ post))) /\
      (forall b,
          snd (run pre) = Ok b ->
          In (fst (TiTransforms.handler raise_exceptions e))
            (fst (run (pre ++ t :: post))) /\
          (e <> NoValidTransformException -> raise_exceptions = true ->
           snd (run (pre ++ t :: post)) = Raise e)) in
    (TiTransform.batch _process t = Raise e ->
     handled (TiTransforms.batch _process raise_exceptions seperate)) /\
    (TiTransform.v3_api _process t = Raise e ->
     handled (TiTransforms.v3_api _process raise_exceptions)).
Proof.
  intros _process raise_exceptions seperate pre post t e handled.
  subst handled. split; intros Ht.
  - unfold TiTransforms.batch. split.
    + intros Hskip. apply handler_skips in Hskip.
      rewrite (proj1 (batch_loop_failed_record _ _ seperate pre post _ _ Ht
                        0 _ _) Hskip).
      apply batch_loop_outcome.
    + intros b Hpre.
      rewrite (batch_loop_outcome _ _ _ pre 0 0 _
                 [Trace "feature=ti-transform-batch, ti-count="
                    (length (pre ++ t :: post))]) in Hpre.
      destruct (proj2 (batch_loop_failed_record _ _ seperate pre post _ _ Ht
                         0 _ _) b Hpre) as [Hlog Hraise].
      split; [exact Hlog |].
      intros Hne Hr. apply Hraise, handler_reraises; assumption.
  - unfold TiTransforms.v3_api. split.
    + intros Hskip. apply handler_skips in Hskip.
      rewrite (proj1 (v3_loop_failed_record _ _ pre post _ _ Ht 0 _ _) Hskip).
      apply v3_loop_outcome.
    + intros b Hpre.
      rewrite (v3_loop_outcome _ _ pre 0 0 _
                 [Trace "feature=ti-transform-v3, ti-count="
                    (length (pre ++ t :: post))]) in Hpre.
      destruct (proj2 (v3_loop_failed_record _ _ pre post _ _ Ht 0 _ _)
                  b Hpre) as [Hlog Hraise].
      split; [exact Hlog |].
      intros Hne Hr. apply Hraise, handler_reraises; assumption.
Qed.

Lemma failed_record_skipped_or_reraised_witness :
  snd (TiTransforms.batch sample_process true false
         [sample_self (Some IndicatorTransformModel) false indicator_item;
          sample_self None false no_valid_item;
          sample_self (Some GroupTransformModel) false group_item])
  = snd (TiTransforms.batch sample_process true false
           [sample_self (Some IndicatorTransformModel) false indicator_item;
            sample_self (Some GroupTransformModel) false group_item]) /\
  snd (TiTransforms.v3_api sample_process true
         [sample_self (Some IndicatorTransformModel) false indicator_item;
          sample_self None false failing_item;
          sample_self (Some GroupTransformModel) false group_item])
  = Raise (TransformException "rating" "ValueError" failing_item).
Proof.
  split.
  - apply (proj1 (proj1 (failed_record_skipped_or_reraised sample_process
                           true false
                           [sample_self (Some IndicatorTransformModel) false
                              indicator_item]
                           [sample_self (Some GroupTransformModel) false
                              group_item]
                           (sample_self None false no_valid_item)
                           NoValidTransformException) eq_refl)).
    left. reflexivity.
  - apply (proj2 (proj2 (proj2 (failed_record_skipped_or_reraised
                                  sample_process true false
                                  [sample_self (Some IndicatorTransformModel)
                                     false indicator_item]
                                  [sample_self (Some GroupTransformModel)
                                     false group_item]
                                  (sample_self None false failing_item)
                                  (TransformException "rating" "ValueError"
                                     failing_item)) eq_refl)
                   [("Address", VList [VStr "summary"; VStr "xid"])] eq_refl));
      [discriminate | reflexivity].
Defined.

(** * Further properties of the code *)

(** ** Configuration models *)

Lemma truthy_str (s : string) : truthy (VStr s) = true <-> s <> "".
Proof.
  cbn. destruct (String.eqb_spec s ""); cbn; split; congruence.
Qed.

Lemma path_errors_nil (jc : string -> bool) (default path : option string) :
  PathTransformModel.errors jc default path = [] <->
  (forall p, path = Some p -> jc p = true) /\
  truthy (of_str default) || truthy (of_str path) = true.
Proof.
  unfold PathTransformModel.errors, PathTransformModel._validate_path,
    PathTransformModel._default_or_path.
  destruct path as [p |]; [destruct (jc p) eqn:Hp |];
    cbn [py_any existsb error_msgs]; rewrite ?orb_false_r.
  - destruct (truthy (of_str default) || truthy (of_str (Some p)));
      cbn; (split; [intros H | intros [_ H]]); try discriminate.
    + split; [intros q Hq; injection Hq as <-; exact Hp | reflexivity].
    + reflexivity.
  - destruct (truthy (of_str default));
      cbn; (split; [discriminate | intros [H _]]);
      specialize (H p eq_refl); congruence.
  - destruct (truthy (of_str default));
      cbn; (split; [intros H | intros [_ H]]); try discriminate.
    + split; [discriminate | reflexivity].
    + reflexivity.
Qed.

(** X1. A [PathTransformModel] document is constructed exactly when its
    [path], if given, compiles, and its [default] or its [path] is a
    non-empty string; otherwise the constructor raises a validation error.
    An empty [default] with no [path] is rejected like no [default] at
    all. *)
Theorem path_model_accepted_iff :
  forall (jc : string -> bool) (d : PathTransformModel.t),
    (PathTransformModel.construct jc d = Ok d <->
     (forall p, d.(PathTransformModel.path) = Some p -> jc p = true) /\
     (exists s, s <> "" /\
                (d.(PathTransformModel.default) = Some s \/
                 d.(PathTransformModel.path) = Some s))) /\
    (PathTransformModel.construct jc d = Ok d \/
     exists msgs,
       msgs <> [] /\
       PathTransformModel.construct jc d = Raise (ValidationError msgs)).
Proof.
  intros jc [default path]. unfold PathTransformModel.construct.
  cbn [PathTransformModel.default PathTransformModel.path].
  pose proof (path_errors_nil jc default path) as Hnil.
  assert (Hor : truthy (of_str default) || truthy (of_str path) = true <->
                exists s, s <> "" /\ (default = Some s \/ path = Some s)).
  { rewrite orb_true_iff. split.
    - intros [H | H]; [destruct default as [s |] | destruct path as [s |]];
        try discriminate; exists s; (split; [apply truthy_str, H | auto]).
    - intros (s & Hs & [-> | ->]); apply truthy_str in Hs; auto. }
  destruct (PathTransformModel.errors jc default path) as [| m ms]; cbn.
  - split; [| left; reflexivity].
    split; [intros _ | reflexivity].
    destruct (proj1 Hnil eq_refl) as [H1 H2].
    split; [exact H1 | apply Hor, H2].
  - split; [| right; eexists; split; [| reflexivity]; discriminate].
    split; [discriminate |].
    intros [H1 H2]. apply Hor in H2.
    pose proof (proj2 Hnil (conj H1 H2)). discriminate.
Qed.

Lemma dict_set_not_nil (k : string) (v : pyval) (d : pydict) :
  dict_set k v d <> [].
Proof.
  destruct d as [| [k0 v0] d]; cbn; [| destruct (k =? k0)]; discriminate.
Qed.

Lemma lowered_not_nil (lower : string -> string) (d acc : pydict) :
  fold_left (fun acc kv => dict_set (lower (fst kv)) (snd kv) acc) d acc = [] ->
  d = [] /\ acc = [].
Proof.
  revert acc. induction d as [| kv d IH]; cbn; intros acc H; [auto |].
  apply IH in H as [_ H]. exfalso. exact (dict_set_not_nil _ _ _ H).
Qed.

Lemma truthy_lowered (lower : string -> string) (o : option pydict) :
  truthy (of_dict (TransformModel._lower_map_keys lower o))
  = truthy (of_dict o).
Proof.
  destruct o as [[| kv d] |]; try reflexivity.
  cbn [TransformModel._lower_map_keys of_dict truthy].
  match goal with
  | |- context [fold_left ?f ?l ?a] => destruct (fold_left f l a) eqn:E
  end; [| reflexivity].
  apply lowered_not_nil in E as [E _]. discriminate.
Qed.

Lemma mechanisms_le_4 (doc : TransformModel.t) :
  TransformModel.mechanisms doc <= 4 /\
  count_None (TransformModel.fields doc) = 4 - TransformModel.mechanisms doc.
Proof.
  destruct doc as [[fm |] kw [[] |] [[] |] [sm |]]; cbn; lia.
Qed.

(** X2. Whatever [str.lower] does to the map keys, a [TransformModel]
    document is rejected with "Either map or method must be defined." when
    none of its mechanisms is a non-empty map or a function, rejected with
    "Only one transform mechanism can be defined." when it gives three or
    four mechanisms, and constructed otherwise: with the maps' keys
    lowered, and with two mechanisms as well as with one. *)
Theorem transform_model_verdict :
  forall (lower : string -> string) (doc : TransformModel.t),
    TransformModel.construct lower doc
    = if negb (py_any (TransformModel.fields doc)) then
        Raise (ValidationError ["Either map or method must be defined."])
      else if (3 <=? TransformModel.mechanisms doc)%nat then
        Raise (ValidationError
                 ["Only one transform mechanism can be defined."])
      else
        Ok {| TransformModel.filter_map :=
                TransformModel._lower_map_keys lower
                  doc.(TransformModel.filter_map);
              TransformModel.kwargs := doc.(TransformModel.kwargs);
              TransformModel.method := doc.(TransformModel.method);
              TransformModel.for_each := doc.(TransformModel.for_each);
              TransformModel.static_map :=
                TransformModel._lower_map_keys lower
                  doc.(TransformModel.static_map) |}.
Proof.
  intros lower doc. unfold TransformModel.construct. cbv zeta.
  match goal with
  | |- context [TransformModel._required_transform ?x] => set (v := x)
  end.
  unfold TransformModel._required_transform.
  assert (Hany : py_any (TransformModel.fields v)
                 = py_any (TransformModel.fields doc)).
  { unfold TransformModel.fields, py_any. subst v. cbn [existsb
      TransformModel.filter_map TransformModel.static_map
      TransformModel.method TransformModel.for_each].
    rewrite !truthy_lowered. reflexivity. }
  assert (Hm : TransformModel.mechanisms v = TransformModel.mechanisms doc).
  { subst v. destruct doc as [[fm |] kw me fe [sm |]]; reflexivity. }
  destruct (mechanisms_le_4 v) as [Hle Hc]. rewrite Hany, Hc, Hm.
  rewrite Hm in Hle.
  destruct (py_any (TransformModel.fields doc)); cbn [negb]; [| reflexivity].
  destruct (Nat.ltb_spec (4 - TransformModel.mechanisms doc) 2),
    (Nat.leb_spec 3 (TransformModel.mechanisms doc)); try lia; reflexivity.
Qed.

Lemma lowered_snoc (lower : string -> string) (d : pydict) (k : string)
  (v : pyval) :
  fold_left (fun acc kv => dict_set (lower (fst kv)) (snd kv) acc)
    (d ++ [(k, v)]) []
  = dict_set (lower k) v
      (fold_left (fun acc kv => dict_set (lower (fst kv)) (snd kv) acc) d []).
Proof. rewrite fold_left_app. reflexivity. Qed.

(** X3. In the map [_lower_map_keys] returns, a key holds the value of the
    last entry of the given map whose lowered key it is, and no value when
    there is no such entry: of two keys that differ by case only, the later
    one wins. *)
Theorem lower_map_keys_last_wins :
  forall (lower : string -> string) (d : pydict),
  exists d',
    TransformModel._lower_map_keys lower (Some d) = Some d' /\
    forall k,
      dict_get k d'
      = option_map snd (find (fun kv => lower (fst kv) =? k) (rev d)).
Proof.
  intros lower d. eexists. split; [reflexivity |].
  induction d as [| [k0 v0] d IH] using rev_ind; intros k.
  - reflexivity.
  - rewrite lowered_snoc, dict_get_set, rev_app_distr. cbn.
    rewrite (String.eqb_sym (lower k0) k).
    destruct (k =? lower k0); [reflexivity | apply IH].
Qed.

Lemma transform_model_raise (lower : string -> string)
  (r : TransformModel.t) (e : exn) :
  TransformModel.construct lower r = Raise e -> error_msgs e <> [].
Proof.
  unfold TransformModel.construct, TransformModel._required_transform.
  cbv zeta.
  destruct (negb (py_any _)); [intros H; injection H as <-; discriminate |].
  destruct (_ <? 2)%nat; [intros H; injection H as <-; discriminate |].
  discriminate.
Qed.

Lemma transform_list_errors (lower : string -> string)
  (rs : list TransformModel.t) :
  snd (MetadataTransformModel.transform_list lower rs) = [] <->
  Forall (fun r => exists m, TransformModel.construct lower r = Ok m) rs.
Proof.
  induction rs as [| r rs IH]; cbn.
  - split; [constructor | reflexivity].
  - destruct (MetadataTransformModel.transform_list lower rs) as [ms es].
    cbn [snd] in IH.
    destruct (TransformModel.construct lower r) as [m | e] eqn:Hr; cbn [snd].
    + rewrite IH. split.
      * intros H. constructor; [exists m; exact Hr | exact H].
      * intros H. inversion H. assumption.
    + split.
      * intros H. apply app_eq_nil in H as [H _].
        exfalso. exact (transform_model_raise _ _ _ Hr H).
      * intros H. inversion H as [| ? ? [m Hm] _]. congruence.
Qed.

(** X4. A [MetadataTransformModel] document is constructed exactly when
    its [default] and [path] alone make a valid [PathTransformModel] and
    every rule under [transform], a single rule counting as a list of one,
    is a valid [TransformModel]: one rejected rule rejects the field
    transform. *)
Theorem field_transform_accepted_iff :
  forall (lower : string -> string) (jc : string -> bool)
         (d : MetadataTransformModel.doc),
    (exists m, MetadataTransformModel.construct lower jc d = Ok m) <->
    (exists m,
        PathTransformModel.construct jc
          {| PathTransformModel.default :=
               d.(MetadataTransformModel.doc_default);
             PathTransformModel.path := d.(MetadataTransformModel.doc_path) |}
        = Ok m) /\
    (forall v,
        d.(MetadataTransformModel.doc_transform) = Some v ->
        Forall (fun r => exists m, TransformModel.construct lower r = Ok m)
          (MetadataTransformModel._always_array v)).
Proof.
  intros lower jc d.
  unfold MetadataTransformModel.construct, PathTransformModel.construct.
  cbn [PathTransformModel.default PathTransformModel.path].
  destruct (PathTransformModel.errors jc _ _) as [| pe pes]; cbn [app validated].
  - destruct (MetadataTransformModel.doc_transform d) as [v |].
    + pose proof (transform_list_errors lower
                    (MetadataTransformModel._always_array v)) as Htr.
      destruct (MetadataTransformModel.transform_list lower _) as [ms es].
      cbn [snd] in Htr. destruct es as [| e es]; cbn.
      * split; [intros _ | intros _; eexists; reflexivity].
        split; [eexists; reflexivity |].
        intros v' H. injection H as <-. apply Htr. reflexivity.
      * split; [intros [m H]; discriminate |].
        intros [_ H]. specialize (H v eq_refl). apply Htr in H. discriminate.
    + cbn. split; [intros _ | intros _; eexists; reflexivity].
      split; [eexists; reflexivity | discriminate].
  - destruct (match MetadataTransformModel.doc_transform d with
              | Some v =>
                  let '(ms, es) :=
                    MetadataTransformModel.transform_list lower
                      (MetadataTransformModel._always_array v) in
                  (Some ms, es)
              | None => (None, [])
              end) as [tr e_tr].
    cbn. split; [intros [m H]; discriminate | intros [[m H] _]; discriminate].
Qed.

Lemma field_transform_raise (lower : string -> string) (jc : string -> bool)
  (d : MetadataTransformModel.doc) (e : exn) :
  MetadataTransformModel.construct lower jc d = Raise e -> error_msgs e <> [].
Proof.
  unfold MetadataTransformModel.construct.
  destruct (match MetadataTransformModel.doc_transform d with
            | Some v =>
                let '(ms, es) :=
                  MetadataTransformModel.transform_list lower
                    (MetadataTransformModel._always_array v) in
                (Some ms, es)
            | None => (None, [])
            end) as [tr e_tr].
  destruct (PathTransformModel.errors jc _ _ ++ e_tr) as [| x xs]; cbn;
    [discriminate |].
  intros H; injection H as <-. discriminate.
Qed.

Lemma optional_no_errors (lower : string -> string) (jc : string -> bool)
  (d : option MetadataTransformModel.doc)
  (v : option MetadataTransformModel.t) (es : list string) :
  IndicatorTransformModel.optional lower jc d = (v, es) ->
  es = [] ->
  match d with
  | Some d' => exists m, MetadataTransformModel.construct lower jc d' = Ok m /\
                         v = Some m
  | None => v = None
  end.
Proof.
  unfold IndicatorTransformModel.optional. destruct d as [d' |].
  - destruct (MetadataTransformModel.construct lower jc d') as [m | e] eqn:E.
    + intros H _. injection H as <- _. exists m. auto.
    + intros H ->. injection H as _ H.
      exfalso. exact (field_transform_raise _ _ _ _ E H).
  - intros H _. injection H as <- _. reflexivity.
Qed.

(** X5. When an [IndicatorTransformModel] document is constructed, its
    [type] was given and is itself a valid field transform, each of
    [value1], [value2], [value3] is absent in the model exactly when absent
    in the document and is otherwise a valid field transform, and one of
    them at least is given: a document without [type], or with an invalid
    field transform anywhere, is never constructed. *)
Theorem indicator_model_constructed_only_if :
  forall (lower : string -> string) (jc : string -> bool)
         (d : IndicatorTransformModel.doc) (m : IndicatorTransformModel.t),
    IndicatorTransformModel.construct lower jc d = Ok m ->
    let valid (doc : option MetadataTransformModel.doc)
              (model : option MetadataTransformModel.t) :=
      match doc with
      | Some d' =>
          exists v, MetadataTransformModel.construct lower jc d' = Ok v /\
                    model = Some v
      | None => model = None
      end in
    valid d.(IndicatorTransformModel.doc_type)
      (Some m.(IndicatorTransformModel.type)) /\
    valid d.(IndicatorTransformModel.doc_value1)
      m.(IndicatorTransformModel.value1) /\
    valid d.(IndicatorTransformModel.doc_value2)
      m.(IndicatorTransformModel.value2) /\
    valid d.(IndicatorTransformModel.doc_value3)
      m.(IndicatorTransformModel.value3) /\
    (d.(IndicatorTransformModel.doc_value1) <> None \/
     d.(IndicatorTransformModel.doc_value2) <> None \/
     d.(IndicatorTransformModel.doc_value3) <> None).
Proof.
  intros lower jc d m. unfold IndicatorTransformModel.construct.
  destruct (IndicatorTransformModel.optional lower jc
              (IndicatorTransformModel.doc_value1 d)) as [v1 e1] eqn:H1.
  destruct (IndicatorTransformModel.optional lower jc
              (IndicatorTransformModel.doc_value2 d)) as [v2 e2] eqn:H2.
  destruct (IndicatorTransformModel.optional lower jc
              (IndicatorTransformModel.doc_value3 d)) as [v3 e3] eqn:H3.
  destruct (IndicatorTransformModel.doc_type d) as [dt |] eqn:Hdt;
    [| discriminate].
  destruct (IndicatorTransformModel.optional lower jc (Some dt))
    as [ty e0] eqn:H0.
  destruct ty as [ty |]; [| discriminate].
  destruct (e0 ++ e1 ++ e2 ++ e3 ++ _) as [| x xs] eqn:E; cbn [validated];
    [| discriminate].
  intros H; injection H as <-. cbn.
  apply app_eq_nil in E as [E0 E]. apply app_eq_nil in E as [E1 E].
  apply app_eq_nil in E as [E2 E]. apply app_eq_nil in E as [E3 E4].
  pose proof (optional_no_errors _ _ _ _ _ H0 E0) as V0.
  pose proof (optional_no_errors _ _ _ _ _ H1 E1) as V1.
  pose proof (optional_no_errors _ _ _ _ _ H2 E2) as V2.
  pose proof (optional_no_errors _ _ _ _ _ H3 E3) as V3.
  repeat split; try assumption.
  destruct (IndicatorTransformModel._one_indicator_value v1 v2 v3) as [[] | e]
    eqn:Hone.
  - apply one_indicator_value_ok in Hone.
    destruct (IndicatorTransformModel.doc_value1 d),
      (IndicatorTransformModel.doc_value2 d),
      (IndicatorTransformModel.doc_value3 d);
      try (left; discriminate); try (right; left; discriminate);
      try (right; right; discriminate).
    subst. destruct Hone as [H | [H | H]]; congruence.
  - unfold IndicatorTransformModel._one_indicator_value in Hone.
    destruct (negb _); [| discriminate].
    injection Hone as <-. discriminate.
Qed.

Lemma indicator_model_constructed_only_if_witness :
  exists m,
    IndicatorTransformModel.construct (fun s => s) sample_compile
      sample_indicator_doc = Ok m /\
    m.(IndicatorTransformModel.value1) = None.
Proof.
  eexists. split; [reflexivity |].
  exact (proj1 (proj2 (indicator_model_constructed_only_if (fun s => s)
                         sample_compile sample_indicator_doc _ eq_refl))).
Defined.

(** ** The batch serialization *)

Lemma ltb_key_le (a b : string * pyval) :
  String.ltb (fst a) (fst b) = true -> key_le a b.
Proof.
  unfold key_le, String.ltb, String.leb.
  destruct (String.compare (fst a) (fst b)); congruence.
Qed.

Lemma not_ltb_key_le (a b : string * pyval) :
  String.ltb (fst a) (fst b) = false -> key_le b a.
Proof.
  unfold key_le, String.ltb, String.leb.
  rewrite (String.compare_antisym (fst a) (fst b)).
  destruct (String.compare (fst b) (fst a)); cbn; congruence.
Qed.

Lemma insert_item_hd (a kv : string * pyval) (d : pydict) :
  HdRel key_le a d -> key_le a kv -> HdRel key_le a (insert_item kv d).
Proof.
  intros Hd Hkv. destruct d as [| b d]; cbn.
  - constructor. exact Hkv.
  - destruct (String.ltb (fst b) (fst kv)); constructor;
      [inversion Hd; assumption | exact Hkv].
Qed.

Lemma insert_item_sorted (kv : string * pyval) (d : pydict) :
  Sorted key_le d -> Sorted key_le (insert_item kv d).
Proof.
  induction d as [| a d IH]; cbn; intros Hs.
  - repeat constructor.
  - apply Sorted_inv in Hs as [Hs Hd].
    destruct (String.ltb (fst a) (fst kv)) eqn:Hlt.
    + constructor; [apply IH, Hs |].
      apply insert_item_hd; [exact Hd | apply ltb_key_le, Hlt].
    + constructor; [constructor; assumption |].
      constructor. apply not_ltb_key_le, Hlt.
Qed.

Lemma insert_item_perm (kv : string * pyval) (d : pydict) :
  Permutation (insert_item kv d) (kv :: d).
Proof.
  induction d as [| a d IH]; cbn; [reflexivity |].
  destruct (String.ltb (fst a) (fst kv)); [| reflexivity].
  rewrite IH. apply perm_swap.
Qed.

(** X6. When [_process] returns, [batch] returns the items of the
    transformed item ordered by key: neighbours are in key order, the items
    are those of the transformed item, each once, and every key holds what
    it held. *)
Theorem batch_is_sorted_item :
  forall (_process : TiTransform.t -> result TiTransform.t)
         (self self' : TiTransform.t),
    _process self = Ok self' ->
    exists data,
      TiTransform.batch _process self = Ok (data, self') /\
      Sorted key_le data /\
      Permutation data self'.(TiTransform.transformed_item) /\
      forall k,
        dict_get k data = dict_get k self'.(TiTransform.transformed_item).
Proof.
  intros _process self self' Hp.
  exists (sorted_items self'.(TiTransform.transformed_item)).
  unfold TiTransform.batch. rewrite Hp. cbn [bind].
  split; [reflexivity |].
  split; [| split; [| intros k; apply dict_get_sorted]].
  - induction (TiTransform.transformed_item self') as [| kv d IH]; cbn.
    + constructor.
    + apply insert_item_sorted, IH.
  - induction (TiTransform.transformed_item self') as [| kv d IH]; cbn.
    + constructor.
    + rewrite insert_item_perm. constructor. exact IH.
Qed.

Lemma batch_is_sorted_item_witness :
  exists data,
    TiTransform.batch sample_process
      (sample_self (Some IndicatorTransformModel) false indicator_item)
    = Ok (data,
          sample_self (Some IndicatorTransformModel) false indicator_item) /\
    Sorted key_le data.
Proof.
  destruct (batch_is_sorted_item sample_process
              (sample_self (Some IndicatorTransformModel) false indicator_item)
              _ eq_refl) as (data & H & Hs & _).
  exists data. split; assumption.
Defined.

(** ** The helpers *)

Lemma unchanged_outside_refl (keys : list string) (self : TiTransform.t) :
  unchanged_outside keys self self.
Proof. repeat split. Qed.

Lemma item_append_frame (k : string) (x : pyval) (self self' : TiTransform.t) :
  TiTransform.item_append k x self = Ok self' ->
  unchanged_outside [k] self self'.
Proof.
  unfold TiTransform.item_append.
  destruct (setdefault_list k _) as [l | e]; cbn [bind]; [| discriminate].
  intros H; injection H as <-. repeat split. cbn.
  intros q Hq. rewrite dict_get_set.
  destruct (String.eqb_spec q k) as [-> | _]; [| reflexivity].
  exfalso. apply Hq. left. reflexivity.
Qed.

Lemma item_set_frame (k : string) (v : pyval) (self self' : TiTransform.t) :
  TiTransform.item_set (VStr k) v self = Ok self' ->
  unchanged_outside [k] self self'.
Proof.
  cbn. intros H; injection H as <-. repeat split. cbn.
  intros q Hq. rewrite dict_get_set.
  destruct (String.eqb_spec q k) as [-> | _]; [| reflexivity].
  exfalso. apply Hq. left. reflexivity.
Qed.

Lemma with_log_frame (keys : list string) (self self' : TiTransform.t)
  (r : log_record) :
  unchanged_outside keys self self' ->
  unchanged_outside keys self (TiTransform.with_log self' r).
Proof. intros H. exact H. Qed.

Ltac frame_guard :=
  match goal with
  | |- (if ?b then _ else _) = Ok _ -> _ =>
      destruct b;
      try (intros H; injection H as <-; apply unchanged_outside_refl)
  end.

(** X7. A helper call that returns has changed nothing but the entries of
    the transformed item under its own key (the one [written_keys] gives:
    for [add_metadata] the key it is given, for the association helpers the
    key of the representation in force) and, for [add_associated_group],
    the log: every other key holds what it held, and the adhoc lists, the
    flag and the selected model are the same. *)
Theorem helper_writes_own_key_only :
  forall (py_int py_float : pyval -> result Z) (c : helper_call)
         (self self' : TiTransform.t),
    call py_int py_float c self = Ok self' ->
    unchanged_outside (written_keys c self) self self'.
Proof.
  intros py_int py_float c self self'.
  destruct c; cbn [call written_keys].
  - unfold TiTransform.add_attribute. frame_guard. apply item_append_frame.
  - unfold TiTransform.add_tag. frame_guard. apply item_append_frame.
  - unfold TiTransform.add_security_label. frame_guard.
    apply item_append_frame.
  - apply item_append_frame.
  - unfold TiTransform.add_metadata. frame_guard.
    destruct key; try discriminate. apply item_set_frame.
  - unfold TiTransform.add_name. frame_guard. apply item_set_frame.
  - unfold TiTransform.add_summary. frame_guard. apply item_set_frame.
  - unfold TiTransform.add_confidence. frame_guard.
    destruct (py_int confidence); cbn [bind]; [| discriminate].
    apply item_set_frame.
  - unfold TiTransform.add_rating. frame_guard.
    destruct (py_float rating); cbn [bind]; [| discriminate].
    apply item_set_frame.
  - unfold TiTransform.add_associated_group.
    destruct (TiTransform.seperate_batch_associations self); cbn [negb];
      destruct (TiTransform.transform self) as [[] |];
      try (intros H; injection H as <-; apply unchanged_outside_refl);
      try apply item_append_frame.
    + destruct (setdefault_list _ _); cbn [bind]; [| discriminate].
      destruct (getitem _ "xid"); cbn [bind]; [| discriminate].
      destruct (TiTransform.item_append _ _ self) as [s |] eqn:E;
        cbn [bind]; [| discriminate].
      intros H; injection H as <-.
      apply with_log_frame. exact (item_append_frame _ _ _ _ E).
    + destruct (setdefault_list _ _); cbn [bind]; [| discriminate].
      destruct (getitem _ "summary"); cbn [bind]; [| discriminate].
      destruct (getitem _ "type"); cbn [bind]; [| discriminate].
      destruct (TiTransform.item_append _ _ self) as [s |] eqn:E;
        cbn [bind]; [| discriminate].
      intros H; injection H as <-.
      apply with_log_frame. exact (item_append_frame _ _ _ _ E).
  - unfold TiTransform.add_associated_indicator.
    destruct (TiTransform.seperate_batch_associations self); cbn [negb];
      [| apply item_append_frame].
    destruct (setdefault_list _ _); cbn [bind]; [| discriminate].
    destruct (getitem _ "xid"); cbn [bind]; [| discriminate].
    apply item_append_frame.
Qed.

Lemma helper_writes_own_key_only_witness :
  exists self',
    call sample_int sample_float (AddTag (VStr "botnet"))
      (sample_self (Some IndicatorTransformModel) false full_item)
    = Ok self' /\
    dict_get "attribute" self'.(TiTransform.transformed_item)
    = dict_get "attribute" full_item.
Proof.
  eexists. split; [reflexivity |].
  apply (proj1 (helper_writes_own_key_only sample_int sample_float
                  (AddTag (VStr "botnet"))
                  (sample_self (Some IndicatorTransformModel) false full_item)
                  _ eq_refl)).
  cbn. intros [H | []]. discriminate.
Defined.

Lemma v3_associated_groups_noop (d : pydict) :
  truthy (get d "associatedGroupXid") = false ->
  TiTransform.v3_associated_groups d = Ok d.
Proof.
  intros H. unfold TiTransform.v3_associated_groups. rewrite H. reflexivity.
Qed.

(** X8. With associations kept inline, [add_associated_group] on a group
    record whose ['associatedGroupXid'] entry is absent or a list appends
    the xid to that list, and fails with [AttributeError] otherwise; in the
    v3 form of the item it leaves, ['associatedGroups'] is
    [{data: [{xid: group_xid}]}], the xid just added and no other, and
    ['associatedGroupXid'] is gone. *)
Theorem added_group_is_the_v3_group :
  forall (group_xid : pyval) (self : TiTransform.t),
    self.(TiTransform.seperate_batch_associations) = false ->
    self.(TiTransform.transform) = Some GroupTransformModel ->
    let item := self.(TiTransform.transformed_item) in
    (list_or_absent "associatedGroupXid" item = false ->
     TiTransform.add_associated_group group_xid self = Raise AttributeError) /\
    (list_or_absent "associatedGroupXid" item = true ->
     exists self',
       TiTransform.add_associated_group group_xid self = Ok self' /\
       dict_get "associatedGroupXid" self'.(TiTransform.transformed_item)
       = Some (VList (batch_entries "associatedGroupXid" item ++ [group_xid]))
       /\
       forall out,
         TiTransform.v3_restructure self'.(TiTransform.transformed_item)
         = Ok out ->
         dict_get "associatedGroups" out
         = Some (VDict [("data", VList [VDict [("xid", group_xid)]])]) /\
         dict_get "associatedGroupXid" out = None).
Proof.
  intros group_xid self Hsep Htr item.
  unfold TiTransform.add_associated_group. rewrite Hsep, Htr. cbn [negb].
  rewrite item_append_spec. fold item. split; intros Hl; rewrite Hl.
  - reflexivity.
  - eexists. split; [reflexivity |]. cbn [TiTransform.with_item
      TiTransform.transformed_item].
    assert (Hx : dict_get "associatedGroupXid"
                   (dict_set "associatedGroupXid"
                      (VList (batch_entries "associatedGroupXid" item
                              ++ [group_xid])) item)
                 = Some (VList (batch_entries "associatedGroupXid" item
                                ++ [group_xid])))
      by (rewrite dict_get_set; reflexivity).
    split; [exact Hx |].
    intros out Hout.
    pose proof (v3_associated_groups_list _ _ _ Hx) as H0.
    split.
    + rewrite (v3_restructure_get _ _ _ "associatedGroups"
                 ltac:(cbv; intuition discriminate) H0 Hout).
      rewrite dict_get_remove, dict_get_set. reflexivity.
    + rewrite (v3_restructure_get _ _ _ "associatedGroupXid"
                 ltac:(cbv; intuition discriminate) H0 Hout).
      rewrite dict_get_remove. reflexivity.
Qed.

Lemma added_group_is_the_v3_group_witness :
  exists self',
    TiTransform.add_associated_group (VStr "g-9")
      (sample_self (Some GroupTransformModel) false
         (group_item ++ [("associatedGroupXid", VList [VStr "g-1"])]))
    = Ok self' /\
    dict_get "associatedGroupXid" self'.(TiTransform.transformed_item)
    = Some (VList [VStr "g-1"; VStr "g-9"]).
Proof.
  destruct (proj2 (added_group_is_the_v3_group (VStr "g-9")
                     (sample_self (Some GroupTransformModel) false
                        (group_item ++
                         [("associatedGroupXid", VList [VStr "g-1"])]))
                     eq_refl eq_refl) eq_refl) as (self' & H & Hx & _).
  exists self'. split; assumption.
Defined.

(** X9. With associations kept inline, [add_associated_group] on an
    indicator record appends [{groupXid: group_xid}] to the list under
    ['associatedGroups'], and when the item has no truthy
    ['associatedGroupXid'] entry the v3 form keeps that flat list under
    ['associatedGroups'] as it is: it is not wrapped in [{data: ...}]. *)
Theorem indicator_groups_stay_flat_in_v3 :
  forall (group_xid : pyval) (self : TiTransform.t),
    self.(TiTransform.seperate_batch_associations) = false ->
    self.(TiTransform.transform) = Some IndicatorTransformModel ->
    let item := self.(TiTransform.transformed_item) in
    list_or_absent "associatedGroups" item = true ->
    truthy (get item "associatedGroupXid") = false ->
    exists self',
      TiTransform.add_associated_group group_xid self = Ok self' /\
      dict_get "associatedGroups" self'.(TiTransform.transformed_item)
      = Some (VList (batch_entries "associatedGroups" item
                     ++ [VDict [("groupXid", group_xid)]])) /\
      forall out,
        TiTransform.v3_restructure self'.(TiTransform.transformed_item)
        = Ok out ->
        dict_get "associatedGroups" out
        = Some (VList (batch_entries "associatedGroups" item
                       ++ [VDict [("groupXid", group_xid)]])).
Proof.
  intros group_xid self Hsep Htr item Hl Hx.
  unfold TiTransform.add_associated_group. rewrite Hsep, Htr. cbn [negb].
  rewrite item_append_spec. fold item. rewrite Hl.
  eexists. split; [reflexivity |].
  cbn [TiTransform.with_item TiTransform.transformed_item].
  assert (Hg : forall v, dict_get "associatedGroups"
                           (dict_set "associatedGroups" v item) = Some v)
    by (intros v; rewrite dict_get_set; reflexivity).
  split; [apply Hg |].
  intros out Hout.
  assert (Hx' : truthy (get (dict_set "associatedGroups"
                               (VList (batch_entries "associatedGroups" item
                                       ++ [VDict [("groupXid", group_xid)]]))
                               item) "associatedGroupXid") = false).
  { unfold get, get_default in *. rewrite dict_get_set. exact Hx. }
  rewrite (v3_restructure_get _ _ _ "associatedGroups"
             ltac:(cbv; intuition discriminate)
             (v3_associated_groups_noop _ Hx') Hout).
  apply Hg.
Qed.

Lemma indicator_groups_stay_flat_in_v3_witness :
  exists self',
    TiTransform.add_associated_group (VStr "g-9")
      (sample_self (Some IndicatorTransformModel) false indicator_item)
    = Ok self' /\
    dict_get "associatedGroups" self'.(TiTransform.transformed_item)
    = Some (VList [VDict [("groupXid", VStr "g-9")]]).
Proof.
  destruct (indicator_groups_stay_flat_in_v3 (VStr "g-9")
              (sample_self (Some IndicatorTransformModel) false indicator_item)
              eq_refl eq_refl eq_refl eq_refl) as (self' & H & Hg & _).
  exists self'. split; assumption.
Defined.

(** X10. [add_custom_association] raises a [TransformException] for the
    field ['associatedIndicator'], with the item as context, whenever
    associations are kept inline.  When they are collected apart and the
    ['association'] entry is absent or a list, it raises [KeyError] for
    ['summary'] or ['type'] when the item lacks one of them, and otherwise
    appends one entry whose [ref_1] and [type_1] are the record's own
    summary and type, changing nothing else of the object. *)
Theorem add_custom_association_outcome :
  forall (summary indicator_type association_type : pyval)
         (self : TiTransform.t),
    let item := self.(TiTransform.transformed_item) in
    let add :=
      TiTransform.add_custom_association summary indicator_type
        association_type self in
    (self.(TiTransform.seperate_batch_associations) = false ->
     exists cause,
       add = Raise (TransformException "associatedIndicator" cause item)) /\
    (self.(TiTransform.seperate_batch_associations) = true ->
     list_or_absent "association" item = true ->
     (dict_get "summary" item = None -> add = Raise (KeyError "summary")) /\
     (dict_get "summary" item <> None -> dict_get "type" item = None ->
      add = Raise (KeyError "type")) /\
     (forall ref_1 type_1,
         dict_get "summary" item = Some ref_1 ->
         dict_get "type" item = Some type_1 ->
         exists self',
           add = Ok self' /\
           batch_entries "association" self'.(TiTransform.transformed_item)
           = batch_entries "association" item
             ++ [VDict [("ref_1", ref_1); ("type_1", type_1);
                        ("ref_2", summary); ("type_2", indicator_type);
                        ("association_type", association_type)]] /\
           unchanged_outside ["association"] self self')).
Proof.
  intros summary indicator_type association_type self item add.
  subst add. unfold TiTransform.add_custom_association. split.
  - intros ->. cbn [negb]. eexists. reflexivity.
  - intros -> Hl. cbn [negb]. fold item.
    rewrite setdefault_list_spec, Hl. cbn [bind]. unfold getitem.
    split; [| split].
    + intros ->. reflexivity.
    + intros Hs ->. destruct (dict_get "summary" item); [reflexivity |].
      congruence.
    + intros ref_1 type_1 -> ->. cbn [bind].
      rewrite item_append_spec. fold item. rewrite Hl.
      eexists. split; [reflexivity |]. split.
      * cbn [TiTransform.with_item TiTransform.transformed_item].
        apply batch_entries_set.
      * apply item_append_frame with
          (x := VDict [("ref_1", ref_1); ("type_1", type_1);
                       ("ref_2", summary); ("type_2", indicator_type);
                       ("association_type", association_type)]).
        rewrite item_append_spec. fold item. rewrite Hl. reflexivity.
Qed.

Lemma add_custom_association_outcome_witness :
  exists cause,
    TiTransform.add_custom_association (VStr "5.6.7.8") (VStr "Address")
      (VStr "Resolves To")
      (sample_self (Some IndicatorTransformModel) false indicator_item)
    = Raise (TransformException "associatedIndicator" cause indicator_item).
Proof.
  exact (proj1 (add_custom_association_outcome (VStr "5.6.7.8")
                  (VStr "Address") (VStr "Resolves To")
                  (sample_self (Some IndicatorTransformModel) false
                     indicator_item)) eq_refl).
Defined.

(** X11. [add_associated_indicator] does not look at the kind of the
    record.  With associations kept inline and ['associatedIndicators']
    absent or a list it appends [{summary, indicatorType}] there; with
    associations collected apart and ['association'] absent or a list it
    appends [{ref_1: xid, ref_2: summary, type_2: indicator_type}] there,
    [xid] being the record's own, and raises [KeyError] for ['xid'] when
    the item has none. *)
Theorem add_associated_indicator_outcome :
  forall (summary indicator_type : pyval) (self : TiTransform.t),
    let item := self.(TiTransform.transformed_item) in
    let add := TiTransform.add_associated_indicator summary indicator_type
                 self in
    (self.(TiTransform.seperate_batch_associations) = false ->
     list_or_absent "associatedIndicators" item = true ->
     exists self',
       add = Ok self' /\
       batch_entries "associatedIndicators"
         self'.(TiTransform.transformed_item)
       = batch_entries "associatedIndicators" item
         ++ [VDict [("summary", summary);
                    ("indicatorType", indicator_type)]]) /\
    (self.(TiTransform.seperate_batch_associations) = true ->
     list_or_absent "association" item = true ->
     (dict_get "xid" item = None -> add = Raise (KeyError "xid")) /\
     (forall xid,
         dict_get "xid" item = Some xid ->
         exists self',
           add = Ok self' /\
           batch_entries "association" self'.(TiTransform.transformed_item)
           = batch_entries "association" item
             ++ [VDict [("ref_1", xid); ("ref_2", summary);
                        ("type_2", indicator_type)]])).
Proof.
  intros summary indicator_type self item add. subst add.
  unfold TiTransform.add_associated_indicator. split.
  - intros -> Hl. cbn [negb]. rewrite item_append_spec. fold item.
    rewrite Hl. eexists. split; [reflexivity |].
    cbn [TiTransform.with_item TiTransform.transformed_item].
    apply batch_entries_set.
  - intros -> Hl. cbn [negb]. fold item.
    rewrite setdefault_list_spec, Hl. cbn [bind]. unfold getitem. split.
    + intros ->. reflexivity.
    + intros xid ->. cbn [bind]. rewrite item_append_spec. fold item.
      rewrite Hl. eexists. split; [reflexivity |].
      cbn [TiTransform.with_item TiTransform.transformed_item].
      apply batch_entries_set.
Qed.

Lemma add_associated_indicator_outcome_witness :
  exists self',
    TiTransform.add_associated_indicator (VStr "5.6.7.8") (VStr "Address")
      (sample_self (Some GroupTransformModel) true group_item) = Ok self' /\
    batch_entries "association" self'.(TiTransform.transformed_item)
    = [VDict [("ref_1", VStr "x-1"); ("ref_2", VStr "5.6.7.8");
              ("type_2", VStr "Address")]].
Proof.
  exact (proj2 (proj2 (add_associated_indicator_outcome (VStr "5.6.7.8")
                         (VStr "Address")
                         (sample_self (Some GroupTransformModel) true
                            group_item)) eq_refl eq_refl)
           (VStr "x-1") eq_refl).
Defined.

(** ** The batch collection *)

(** The end of the loop body of [batch]: the record goes to the bucket of
    its kind, then its adhoc entries to theirs; no other key is touched. *)
Lemma batch_step_tail (data : pydict) (t : TiTransform.t) (b1 : pydict)
  (lg li : list pyval) :
  dict_get "group" b1 = Some (VList lg) ->
  dict_get "indicator" b1 = Some (VList li) ->
  exists b',
    (batch <-
       match t.(TiTransform.transform) with
       | Some GroupTransformModel => getitem_append "group" (VDict data) b1
       | Some IndicatorTransformModel =>
           getitem_append "indicator" (VDict data) b1
       | None => Ok b1
       end ;;
     batch <- getitem_extend "group" t.(TiTransform.adhoc_groups) batch ;;
     getitem_extend "indicator" t.(TiTransform.adhoc_indicators) batch)
    = Ok b' /\
    dict_get "group" b'
    = Some (VList (lg ++
                   match t.(TiTransform.transform) with
                   | Some GroupTransformModel => [VDict data]
                   | _ => []
                   end ++ t.(TiTransform.adhoc_groups))) /\
    dict_get "indicator" b'
    = Some (VList (li ++
                   match t.(TiTransform.transform) with
                   | Some IndicatorTransformModel => [VDict data]
                   | _ => []
                   end ++ t.(TiTransform.adhoc_indicators))) /\
    forall q, q <> "group" -> q <> "indicator" ->
              dict_get q b' = dict_get q b1.
Proof.
  intros Hg Hi.
  destruct (TiTransform.transform t) as [[] |].
  - rewrite (getitem_append_ok _ _ _ _ Hg). cbn [bind].
    erewrite getitem_extend_ok by (rewrite dict_get_set; reflexivity).
    cbn [bind].
    erewrite getitem_extend_ok by (rewrite !dict_get_set; exact Hi).
    eexists. split; [reflexivity |]. rewrite !dict_get_set. cbn.
    rewrite <- app_assoc. repeat split.
    intros q H1 H2. rewrite !dict_get_set.
    rewrite (proj2 (String.eqb_neq _ _) H1), (proj2 (String.eqb_neq _ _) H2).
    reflexivity.
  - rewrite (getitem_append_ok _ _ _ _ Hi). cbn [bind].
    erewrite getitem_extend_ok by (rewrite dict_get_set; exact Hg).
    cbn [bind].
    erewrite getitem_extend_ok by (rewrite !dict_get_set; reflexivity).
    eexists. split; [reflexivity |]. rewrite !dict_get_set. cbn.
    rewrite <- app_assoc. repeat split.
    intros q H1 H2. rewrite !dict_get_set.
    rewrite (proj2 (String.eqb_neq _ _) H1), (proj2 (String.eqb_neq _ _) H2).
    reflexivity.
  - cbn [bind].
    rewrite (getitem_extend_ok _ _ _ _ Hg). cbn [bind].
    erewrite getitem_extend_ok by (rewrite !dict_get_set; exact Hi).
    eexists. split; [reflexivity |]. rewrite !dict_get_set. cbn.
    repeat split.
    intros q H1 H2. rewrite !dict_get_set.
    rewrite (proj2 (String.eqb_neq _ _) H1), (proj2 (String.eqb_neq _ _) H2).
    reflexivity.
Qed.

Lemma batch_entries_ne (k q : string) (v : pyval) (d : pydict) :
  q <> k -> batch_entries q (dict_set k v d) = batch_entries q d.
Proof.
  intros H. unfold batch_entries.
  rewrite dict_get_set, (proj2 (String.eqb_neq _ _) H). reflexivity.
Qed.

(** What one pass of the loop body of [batch] leaves in the buckets. *)
Lemma batch_step_buckets (seperate : bool) (data batch b' : pydict)
  (t : TiTransform.t) (lg li : list pyval) :
  dict_get "group" batch = Some (VList lg) ->
  dict_get "indicator" batch = Some (VList li) ->
  TiTransforms.batch_step seperate data t batch = Ok b' ->
  let placed :=
    if seperate then snd (dict_pop_default "association" (VList []) data)
    else data in
  dict_get "group" b'
  = Some (VList (lg ++
                 match t.(TiTransform.transform) with
                 | Some GroupTransformModel => [VDict placed]
                 | _ => []
                 end ++ t.(TiTransform.adhoc_groups))) /\
  dict_get "indicator" b'
  = Some (VList (li ++
                 match t.(TiTransform.transform) with
                 | Some IndicatorTransformModel => [VDict placed]
                 | _ => []
                 end ++ t.(TiTransform.adhoc_indicators))) /\
  (if seperate then
     exists l,
       py_iter (fst (dict_pop_default "association" (VList []) data)) = Ok l /\
       batch_entries "association" b'
       = batch_entries "association" batch ++ l
   else dict_get "association" b' = dict_get "association" batch).
Proof.
  intros Hg Hi. unfold TiTransforms.batch_step.
  destruct seperate.
  - destruct (dict_pop_default "association" (VList []) data)
      as [associations data'].
    unfold setdefault_extend. rewrite setdefault_list_spec.
    destruct (list_or_absent "association" batch); cbn [bind];
      [| discriminate].
    destruct (py_iter associations) as [l | e] eqn:Hit; cbn [bind fst snd];
      [| discriminate].
    set (b1 := dict_set "association" _ batch).
    destruct (batch_step_tail data' t b1 lg li) as (b2 & -> & H1 & H2 & H3);
      try (subst b1; rewrite dict_get_set; assumption).
    intros H; injection H as <-. cbv zeta.
    split; [exact H1 |]. split; [exact H2 |].
    exists l. split; [exact Hit |].
    rewrite (batch_entries_ext "association" b1 b2)
      by (apply H3; discriminate).
    subst b1. apply batch_entries_set.
  - cbn [bind].
    destruct (batch_step_tail data t batch lg li Hg Hi)
      as (b2 & -> & H1 & H2 & H3).
    intros H; injection H as <-. cbv zeta.
    split; [exact H1 |]. split; [exact H2 |]. apply H3; discriminate.
Qed.

Lemma bucket_part_ok (_process : TiTransform.t -> result TiTransform.t)
  (seperate : bool) (t t' : TiTransform.t) (data : pydict) :
  TiTransform.batch _process t = Ok (data, t') ->
  let placed :=
    if seperate then snd (dict_pop_default "association" (VList []) data)
    else data in
  bucket_part _process seperate GroupTransformModel t
  = match t'.(TiTransform.transform) with
    | Some GroupTransformModel => [VDict placed]
    | _ => []
    end ++ t'.(TiTransform.adhoc_groups) /\
  bucket_part _process seperate IndicatorTransformModel t
  = match t'.(TiTransform.transform) with
    | Some IndicatorTransformModel => [VDict placed]
    | _ => []
    end ++ t'.(TiTransform.adhoc_indicators).
Proof.
  intros H. unfold bucket_part. rewrite H. cbv zeta.
  destruct (TiTransform.transform t') as [[] |]; split; reflexivity.
Qed.

Lemma batch_loop_buckets (_process : TiTransform.t -> result TiTransform.t)
  (raise_exceptions seperate : bool) (ts : list TiTransform.t) :
  forall index log batch lg li b,
    dict_get "group" batch = Some (VList lg) ->
    dict_get "indicator" batch = Some (VList li) ->
    snd (TiTransforms.batch_loop _process raise_exceptions seperate
           index ts log batch) = Ok b ->
    dict_get "group" b
    = Some (VList (lg ++ flat_map (bucket_part _process seperate
                                     GroupTransformModel) ts)) /\
    dict_get "indicator" b
    = Some (VList (li ++ flat_map (bucket_part _process seperate
                                     IndicatorTransformModel) ts)) /\
    (if seperate then
       batch_entries "association" b
       = batch_entries "association" batch
         ++ flat_map (association_part _process) ts
     else dict_get "association" b = dict_get "association" batch).
Proof.
  induction ts as [| t ts IH]; intros index log batch lg li b Hg Hi;
    cbn [TiTransforms.batch_loop flat_map].
  - cbn. intros H; injection H as <-. rewrite !app_nil_r.
    destruct seperate; auto.
  - destruct (TiTransform.batch _process t) as [[data t'] | e] eqn:Eb.
    + destruct (bucket_part_ok _process seperate t t' data Eb) as [Bg Bi].
      destruct (TiTransforms.batch_step seperate data t' batch) as [b' | e]
        eqn:Es; [| cbn; discriminate].
      destruct (batch_step_buckets _ _ _ _ _ lg li Hg Hi Es) as (G & I & A).
      intros Hb. destruct (IH _ _ _ _ _ _ G I Hb) as (G' & I' & A').
      rewrite G', I', Bg, Bi, <- !app_assoc.
      split; [reflexivity |]. split; [reflexivity |].
      destruct seperate.
      * destruct A as (l & Hl & A). rewrite A', A, <- app_assoc.
        unfold association_part at 2. rewrite Eb, Hl. reflexivity.
      * congruence.
    + assert (Bg : bucket_part _process seperate GroupTransformModel t = [])
        by (unfold bucket_part; rewrite Eb; reflexivity).
      assert (Bi : bucket_part _process seperate IndicatorTransformModel t
                   = [])
        by (unfold bucket_part; rewrite Eb; reflexivity).
      assert (Ba : association_part _process t = [])
        by (unfold association_part; rewrite Eb; reflexivity).
      rewrite Bg, Bi, Ba.
      destruct (TiTransforms.handler raise_exceptions e) as [r []];
        [cbn; discriminate |].
      apply IH; assumption.
Qed.

Lemma batch_loop_inline_returns
  (_process : TiTransform.t -> result TiTransform.t)
  (ts : list TiTransform.t) :
  forall index log batch lg li,
    dict_get "group" batch = Some (VList lg) ->
    dict_get "indicator" batch = Some (VList li) ->
    exists b,
      snd (TiTransforms.batch_loop _process false false index ts log batch)
      = Ok b.
Proof.
  induction ts as [| t ts IH]; intros index log batch lg li Hg Hi;
    cbn [TiTransforms.batch_loop].
  - eexists. reflexivity.
  - destruct (TiTransform.batch _process t) as [[data t'] | e].
    + unfold TiTransforms.batch_step. cbn [bind].
      destruct (batch_step_tail data t' batch lg li Hg Hi)
        as (b2 & -> & H1 & H2 & _).
      eapply IH; eassumption.
    + assert (Hh : snd (TiTransforms.handler false e) = false)
        by (apply handler_skips; right; reflexivity).
      destruct (TiTransforms.handler false e) as [r rr]. cbn in Hh. subst rr.
      eapply IH; eassumption.
Qed.

(** X12. When [batch] returns, ['group'] holds, record after record in
    input order, the data of each group record followed by its adhoc
    groups, and ['indicator'] likewise; a record whose [t.batch] raised adds
    nothing, not even its adhoc entries, and a record of neither kind adds
    its adhoc entries only.  With associations collected apart the
    entries under ['association'] are the records' associations in input
    order and the records are placed without their ['association'] entry;
    otherwise there is no ['association'] key.
    With associations inline and [raise_exceptions] unset, [batch] always
    returns. *)
Theorem batch_buckets_follow_input :
  forall (_process : TiTransform.t -> result TiTransform.t)
         (raise_exceptions seperate : bool) (ts : list TiTransform.t),
    (forall b,
        snd (TiTransforms.batch _process raise_exceptions seperate ts) = Ok b ->
        dict_get "group" b
        = Some (VList (flat_map (bucket_part _process seperate
                                   GroupTransformModel) ts)) /\
        dict_get "indicator" b
        = Some (VList (flat_map (bucket_part _process seperate
                                   IndicatorTransformModel) ts)) /\
        (if seperate then
           batch_entries "association" b
           = flat_map (association_part _process) ts
         else dict_get "association" b = None)) /\
    (raise_exceptions = false -> seperate = false ->
     exists b,
       snd (TiTransforms.batch _process raise_exceptions seperate ts) = Ok b).
Proof.
  intros _process raise_exceptions seperate ts. unfold TiTransforms.batch.
  split.
  - intros b Hb.
    destruct (batch_loop_buckets _ _ _ _ _ _
                [("group", VList []); ("indicator", VList [])] [] [] _
                eq_refl eq_refl Hb) as (G & I & A).
    split; [exact G |]. split; [exact I |].
    destruct seperate; exact A.
  - intros -> ->.
    eapply batch_loop_inline_returns; reflexivity.
Qed.

Lemma batch_buckets_follow_input_witness :
  exists b,
    snd (TiTransforms.batch sample_process false false
           [sample_self (Some IndicatorTransformModel) false indicator_item;
            sample_self None false failing_item;
            sample_self (Some GroupTransformModel) false group_item])
    = Ok b /\
    dict_get "group" b = Some (VList [VDict (sorted_items group_item)]).
Proof.
  destruct (proj2 (batch_buckets_follow_input sample_process false false
                     [sample_self (Some IndicatorTransformModel) false
                        indicator_item;
                      sample_self None false failing_item;
                      sample_self (Some GroupTransformModel) false group_item])
              eq_refl eq_refl) as [b Hb].
  exists b. split; [exact Hb |].
  exact (proj1 (proj1 (batch_buckets_follow_input sample_process false false
                         _) b Hb)).
Defined.

(** ** The v3 collection *)

Lemma v3_loop_uncaught (_process : TiTransform.t -> result TiTransform.t)
  (raise_exceptions : bool) (pre post : list TiTransform.t)
  (t t' : TiTransform.t) (data : pydict) (e : exn) :
  TiTransform.v3_api _process t = Ok (data, t') ->
  (forall v3_data, TiTransforms.v3_step data v3_data = Raise e) ->
  forall index log v3_data b,
    snd (TiTransforms.v3_loop _process raise_exceptions index pre log v3_data)
    = Ok b ->
    snd (TiTransforms.v3_loop _process raise_exceptions index
           (pre ++ t :: post) log v3_data) = Raise e.
Proof.
  intros Ht He.
  induction pre as [| t0 pre IH]; intros index log v3_data b;
    cbn [app TiTransforms.v3_loop].
  - intros _. rewrite Ht, He. reflexivity.
  - destruct (TiTransform.v3_api _process t0) as [[data0 t0'] | e0].
    + destruct (TiTransforms.v3_step data0 v3_data); [apply IH |].
      cbn. discriminate.
    + destruct (TiTransforms.handler raise_exceptions e0) as [r []];
        [cbn; discriminate | apply IH].
Qed.

(** X13. In the v3 extraction the lookup of the record's type is outside
    the [try]: a record whose [t.v3_api] returns a dict without ['type']
    makes the run raise [KeyError], whatever [raise_exceptions] is, once the
    records before it went through; the records after it are not
    processed. *)
Theorem v3_api_record_without_type_aborts :
  forall (_process : TiTransform.t -> result TiTransform.t)
         (raise_exceptions : bool) (pre post : list TiTransform.t)
         (t t' : TiTransform.t) (data b : pydict),
    TiTransform.v3_api _process t = Ok (data, t') ->
    dict_get "type" data = None ->
    snd (TiTransforms.v3_api _process raise_exceptions pre) = Ok b ->
    snd (TiTransforms.v3_api _process raise_exceptions (pre ++ t :: post))
    = Raise (KeyError "type").
Proof.
  intros _process raise_exceptions pre post t t' data b Ht Hty Hpre.
  unfold TiTransforms.v3_api in *.
  rewrite (v3_loop_outcome _ _ pre 0 0 _
             [Trace "feature=ti-transform-v3, ti-count="
                (length (pre ++ t :: post))]) in Hpre.
  apply (v3_loop_uncaught _ _ pre post t t' data _ Ht) with (b := b);
    [| exact Hpre].
  intros v3_data. unfold TiTransforms.v3_step, dict_pop. rewrite Hty.
  reflexivity.
Qed.

Lemma v3_api_record_without_type_aborts_witness :
  snd (TiTransforms.v3_api sample_process false
         [sample_self (Some IndicatorTransformModel) false indicator_item;
          sample_self None false [("summary", VStr "1.2.3.4")];
          sample_self (Some GroupTransformModel) false group_item])
  = Raise (KeyError "type").
Proof.
  exact (v3_api_record_without_type_aborts sample_process false
           [sample_self (Some IndicatorTransformModel) false indicator_item]
           [sample_self (Some GroupTransformModel) false group_item]
           (sample_self None false [("summary", VStr "1.2.3.4")])
           _ _ _ eq_refl eq_refl eq_refl).
Defined.

(** ** The v3 restructuring *)

Lemma get_ext (q : string) (d d' : pydict) :
  dict_get q d' = dict_get q d -> get d' q = get d q.
Proof. unfold get, get_default. intros ->. reflexivity. Qed.

Lemma v3_associated_groups_frame (d d' : pydict) :
  TiTransform.v3_associated_groups d = Ok d' ->
  truthy (get d' "associatedGroupXid") = false /\
  forall q, q <> "associatedGroupXid" -> q <> "associatedGroups" ->
            dict_get q d' = dict_get q d.
Proof.
  unfold TiTransform.v3_associated_groups.
  destruct (truthy (get d "associatedGroupXid")) eqn:T.
  - apply get_truthy in T as (v & Hv & _).
    unfold getitem. rewrite Hv. cbn [bind].
    destruct (py_iter v) as [gs | e]; cbn [bind]; [| discriminate].
    rewrite (dict_del_ok _ v) by (rewrite dict_get_set; exact Hv).
    intros H; injection H as <-. split.
    + unfold get, get_default. rewrite dict_get_remove. reflexivity.
    + intros q H1 H2. rewrite dict_get_remove, dict_get_set.
      rewrite (proj2 (String.eqb_neq _ _) H1), (proj2 (String.eqb_neq _ _) H2).
      reflexivity.
  - intros H; injection H as <-. split; [exact T | reflexivity].
Qed.

Lemma v3_block_falsy (k plural : string) (f : pyval -> result pyval)
  (d d' : pydict) :
  TiTransform.v3_block k plural f d = Ok d' ->
  truthy (get d' k) = false.
Proof.
  unfold TiTransform.v3_block.
  destruct (truthy (get d k)) eqn:T.
  - apply get_truthy in T as (v & Hv & _).
    unfold getitem. rewrite Hv. cbn [bind].
    destruct (py_iter v) as [it | e]; cbn [bind]; [| discriminate].
    destruct (mapM f it) as [data | e]; cbn [bind]; [| discriminate].
    unfold dict_del. destruct (dict_get k (dict_set plural _ d));
      [| discriminate].
    intros H; injection H as <-.
    unfold get, get_default. rewrite dict_get_remove, String.eqb_refl.
    reflexivity.
  - intros H; injection H as <-. exact T.
Qed.

Lemma v3_block_noop (k plural : string) (f : pyval -> result pyval)
  (d : pydict) :
  truthy (get d k) = false -> TiTransform.v3_block k plural f d = Ok d.
Proof. intros H. unfold TiTransform.v3_block. rewrite H. reflexivity. Qed.

Lemma v3_restructure_noop (item : pydict) :
  Forall (fun k => truthy (get item k) = false) singular_keys ->
  TiTransform.v3_restructure item = Ok item.
Proof.
  unfold singular_keys. intros H.
  repeat match goal with
         | H : Forall _ (_ :: _) |- _ => inversion H; clear H; subst
         end.
  unfold TiTransform.v3_restructure.
  rewrite v3_associated_groups_noop by assumption. cbn [bind].
  rewrite v3_block_noop by assumption. cbn [bind].
  rewrite v3_block_noop by assumption. cbn [bind].
  rewrite v3_block_noop by assumption. cbn [bind].
  apply v3_block_noop. assumption.
Qed.

(** X14. The v3 restructuring changes nothing of an item none of whose
    five singular entries is truthy: an empty list stays under its singular
    key and no plural key is produced for it.  When it returns, no singular
    entry of the output is truthy, so restructuring the output again
    returns it unchanged, and every key that is neither a singular nor a
    plural key holds what it held in the item. *)
Theorem v3_restructure_settles :
  forall item : pydict,
    (Forall (fun k => truthy (get item k) = false) singular_keys ->
     TiTransform.v3_restructure item = Ok item) /\
    (forall out,
        TiTransform.v3_restructure item = Ok out ->
        Forall (fun k => truthy (get out k) = false) singular_keys /\
        TiTransform.v3_restructure out = Ok out /\
        forall q, ~ In q (singular_keys ++ plural_keys) ->
                  dict_get q out = dict_get q item).
Proof.
  intros item. split; [apply v3_restructure_noop |].
  intros out. unfold TiTransform.v3_restructure at 1.
  destruct (TiTransform.v3_associated_groups item) as [d0 | e] eqn:H0;
    cbn [bind]; [| discriminate].
  destruct (TiTransform.v3_block "attribute" _ _ d0) as [d1 | e] eqn:H1;
    cbn [bind]; [| discriminate].
  destruct (TiTransform.v3_block "tag" _ _ d1) as [d2 | e] eqn:H2;
    cbn [bind]; [| discriminate].
  destruct (TiTransform.v3_block "securityLabel" _ _ d2) as [d3 | e] eqn:H3;
    cbn [bind]; [| discriminate].
  intros H4.
  destruct (v3_associated_groups_frame _ _ H0) as [F0 P0].
  pose proof (v3_block_falsy _ _ _ _ _ H1) as F1.
  pose proof (v3_block_falsy _ _ _ _ _ H2) as F2.
  pose proof (v3_block_falsy _ _ _ _ _ H3) as F3.
  pose proof (v3_block_falsy _ _ _ _ _ H4) as F4.
  assert (P1 := fun q Hk Hp => v3_block_get _ _ _ _ _ q Hk Hp H1).
  assert (P2 := fun q Hk Hp => v3_block_get _ _ _ _ _ q Hk Hp H2).
  assert (P3 := fun q Hk Hp => v3_block_get _ _ _ _ _ q Hk Hp H3).
  assert (P4 := fun q Hk Hp => v3_block_get _ _ _ _ _ q Hk Hp H4).
  assert (Hs : Forall (fun k => truthy (get out k) = false) singular_keys).
  { unfold singular_keys. repeat constructor.
    - rewrite (get_ext _ d0); [exact F0 |].
      rewrite P4, P3, P2, P1 by discriminate. reflexivity.
    - rewrite (get_ext _ d1); [exact F1 |].
      rewrite P4, P3, P2 by discriminate. reflexivity.
    - rewrite (get_ext _ d2); [exact F2 |].
      rewrite P4, P3 by discriminate. reflexivity.
    - rewrite (get_ext _ d3); [exact F3 |].
      rewrite P4 by discriminate. reflexivity.
    - exact F4. }
  split; [exact Hs |]. split; [apply v3_restructure_noop, Hs |].
  intros q Hq. unfold singular_keys, plural_keys in Hq. cbn in Hq.
  rewrite P4, P3, P2, P1 by (intros ->; apply Hq; tauto).
  apply P0; intros ->; apply Hq; tauto.
Qed.

Lemma v3_restructure_settles_witness :
  exists out,
    TiTransform.v3_restructure full_item = Ok out /\
    TiTransform.v3_restructure out = Ok out /\
    dict_get "summary" out = Some (VStr "1.2.3.4").
Proof.
  eexists. split; [reflexivity |].
  destruct (proj2 (v3_restructure_settles full_item) _ eq_refl)
    as (_ & Hi & Hq).
  split; [exact Hi |].
  rewrite Hq; [reflexivity |].
  cbn. intuition discriminate.
Defined.

Lemma mapM_raise {A B : Type} (f : A -> result B) (ok rest : list A) (a : A)
  (e : exn) :
  Forall (fun x => exists y, f x = Ok y) ok ->
  f a = Raise e ->
  mapM f (ok ++ a :: rest) = Raise e.
Proof.
  intros Hok Ha. induction Hok as [| x ok [y Hy] _ IH]; cbn.
  - rewrite Ha. reflexivity.
  - rewrite Hy, IH. reflexivity.
Qed.

(** X15. The two serializers do not fail alike.  When an entry under
    ['attribute'] cannot be converted ([v3_attribute] raises: the entry is
    not a dict, or lacks ['type'] or ['value']) and the entries before it
    can, [v3_api] raises that exception, while [batch] returns the item
    with the entry in it; a dict with a ['type'] and no ['value'] raises
    [KeyError] for ['value']. *)
Theorem v3_api_raises_where_batch_returns :
  forall (_process : TiTransform.t -> result TiTransform.t)
         (self self' : TiTransform.t) (ok rest : list pyval) (a : pyval)
         (e : exn),
    _process self = Ok self' ->
    let item := self'.(TiTransform.transformed_item) in
    truthy (get item "associatedGroupXid") = false ->
    dict_get "attribute" item = Some (VList (ok ++ a :: rest)) ->
    forallb (has_keys ["type"; "value"]) ok = true ->
    TiTransform.v3_attribute a = Raise e ->
    TiTransform.v3_api _process self = Raise e /\
    (exists data,
        TiTransform.batch _process self = Ok (data, self') /\
        batch_entries "attribute" data = ok ++ a :: rest) /\
    (forall d ty,
        a = VDict d -> dict_get "type" d = Some ty ->
        dict_get "value" d = None -> e = KeyError "value").
Proof.
  intros _process self self' ok rest a e Hp item Hx Ha Hok He.
  split; [| split].
  - unfold TiTransform.v3_api. rewrite Hp. cbn [bind]. fold item.
    unfold TiTransform.v3_restructure.
    rewrite (v3_associated_groups_noop _ Hx). cbn [bind].
    unfold TiTransform.v3_block, get, get_default, getitem. rewrite Ha.
    replace (truthy (VList (ok ++ a :: rest))) with true
      by (destruct ok; reflexivity).
    cbn [bind py_iter].
    assert (Hconv : Forall (fun x => exists y,
                              TiTransform.v3_attribute x = Ok y) ok).
    { apply Forall_forall. intros x Hin.
      destruct (v3_attribute_converts x
                  (proj1 (forallb_forall _ _) Hok x Hin)) as (y & Hy & _).
      exists y. exact Hy. }
    rewrite (mapM_raise _ _ _ _ _ Hconv He). reflexivity.
  - exists (sorted_items item). unfold TiTransform.batch. rewrite Hp.
    split; [reflexivity |].
    unfold batch_entries. rewrite dict_get_sorted, Ha. reflexivity.
  - intros d ty -> Hty Hv. revert He.
    unfold TiTransform.v3_attribute, subscript, getitem. rewrite Hty, Hv.
    cbn. congruence.
Qed.

Lemma v3_api_raises_where_batch_returns_witness :
  TiTransform.v3_api sample_process
    (sample_self (Some IndicatorTransformModel) false
       (indicator_item ++
        [("attribute",
          VList [VDict [("type", VStr "Source"); ("value", VStr "feed-7")];
                 VDict [("type", VStr "Description")]])]))
  = Raise (KeyError "value").
Proof.
  exact (proj1 (v3_api_raises_where_batch_returns sample_process
                  (sample_self (Some IndicatorTransformModel) false
                     (indicator_item ++
                      [("attribute",
                        VList [VDict [("type", VStr "Source");
                                      ("value", VStr "feed-7")];
                               VDict [("type", VStr "Description")]])]))
                  _
                  [VDict [("type", VStr "Source"); ("value", VStr "feed-7")]]
                  [] (VDict [("type", VStr "Description")])
                  (KeyError "value") eq_refl eq_refl eq_refl eq_refl eq_refl)).
Defined.
